(** * StreamScalp Pro: order lifecycle and risk gate

    A shallow embedding of
      - [order_manager/order_state.py]  (class [OrderStateManager]),
      - [risk_manager/risk_manager.py]  (class [RiskManager]),
      - [order_manager/order_manager.py] (class [OrderManager]),
    followed by the properties of the order-lifecycle specification that
    these three classes decide.

    Modelling conventions
      - Python [dict]s used as maps keyed by order id or symbol are
        [gmap]s.  Python [dict]s used as records (an order, a venue
        reply, the account information) are records of [entry]s: a key
        is absent, holds [None], or holds a value, and [d.get(k)],
        [d.get(k, fallback)], [k in d] and [d[k]] are told apart.  Where
        the code reads a key with [d.get(k)] only, or the dictionary is
        built with all its keys, the field is the [option] that
        [d.get(k)] returns.  The dictionaries that the risk manager is
        handed by its callers (a position, a trade, a configuration)
        hold values under the keys they have: their fields are
        [option]s, [None] for an absent key.
      - Numbers are Python [int]s and finite [float]s, a [float] being
        the rational it stands for.  What [*], [+] and [/] return on two
        numbers is a parameter ([Arith]): nothing below depends on how
        Python rounds.  [float('inf')] is the extra point [Inf] of
        [pyfloat].  Comparisons are exact, as they are in Python.
      - A method is a function from the object's state to an [outcome]
        (a value or a raised exception) and the state after the call;
        mutations performed before an exception is raised persist.
      - [datetime.utcnow()], [uuid.uuid4()] and the venue are inputs. *)

From Stdlib Require Import ZArith QArith Qabs Qround String Ascii List Lia.
From stdpp Require Import base option gmap strings list fin_maps pretty.

Local Open Scope string_scope.
Local Open Scope list_scope.

(** ** Exceptions and outcomes *)

Inductive exn : Type :=
  | KeyError (key : string)
  | AttributeError (msg : string)
  | TypeError (msg : string)
  | ZeroDivisionError (msg : string)
  | VenueError (msg : string)
  | TransportError (msg : string).

(** [str(e)] *)
Definition str_exn (e : exn) : string :=
  match e with
  | KeyError k => "'" +:+ k +:+ "'"
  | AttributeError m => m
  | TypeError m => m
  | ZeroDivisionError m => m
  | VenueError m => m
  | TransportError m => m
  end.

Inductive outcome (A : Type) : Type :=
  | Ok (a : A)
  | Raise (e : exn).
Arguments Ok {A} a.
Arguments Raise {A} e.

(** ** Strings: [str.lower()] on the ASCII range *)

Definition lower_ascii (c : ascii) : ascii :=
  let n := nat_of_ascii c in
  if (Nat.leb 65 n && Nat.leb n 90)%bool then ascii_of_nat (n + 32) else c.

Fixpoint lower (s : string) : string :=
  match s with
  | EmptyString => EmptyString
  | String c s' => String (lower_ascii c) (lower s')
  end.

(** ** Values stored in venue detail dictionaries *)

Inductive value : Type :=
  | VNone
  | VNum (q : Q)
  | VStr (s : string).

(** Python [==] on these values. *)
Definition py_eqb (a b : value) : bool :=
  match a, b with
  | VNone, VNone => true
  | VNum x, VNum y => Qeq_bool x y
  | VStr x, VStr y => String.eqb x y
  | _, _ => false
  end.

(** [d.get(k)]: [None] when the key is absent. *)
Definition dict_get (d : gmap string value) (k : string) : value :=
  default VNone (d !! k).

(** * order_manager/order_state.py *)

Module OrderStateM.

Inductive OrderState : Type :=
  | PENDING
  | SENT
  | FILLED
  | PARTIALLY_FILLED
  | CANCELED
  | REJECTED
  | ERROR.

#[global] Instance OrderState_eq_dec : EqDecision OrderState.
Proof. solve_decision. Defined.

(** One element of [order_history[order_id]]. *)
Record HistoryEntry : Type := mkEntry {
  state : OrderState;
  timestamp : Z;
  details : option (gmap string value)
}.

Record OrderStateManager : Type := mkManager {
  order_states : gmap string OrderState;
  order_history : gmap string (list HistoryEntry);
  retry_attempts : gmap string Z;
  max_retries : Z
}.

(** [__init__] *)
Definition init : OrderStateManager :=
  {| order_states := ∅; order_history := ∅; retry_attempts := ∅;
     max_retries := 3 |}.

(** [initialize_order(order_id)]; [now] is the reading of
    [datetime.utcnow()].  The three assignments are unconditional. *)
Definition initialize_order (m : OrderStateManager) (order_id : string)
    (now : Z) : OrderStateManager :=
  {| order_states := <[order_id := PENDING]> (order_states m);
     order_history :=
       <[order_id := [mkEntry PENDING now None]]> (order_history m);
     retry_attempts := <[order_id := 0%Z]> (retry_attempts m);
     max_retries := max_retries m |}.

(** [update_state(order_id, new_state, details)].  [t0] is the clock
    reading used if the order has to be initialised first, [t1] the one
    stamped on the appended entry.  [order_history[order_id].append]
    raises [KeyError] when the history is missing; the assignment to
    [order_states] has happened by then. *)
Definition update_state (m : OrderStateManager) (order_id : string)
    (new_state : OrderState) (dt : option (gmap string value))
    (t0 t1 : Z) : outcome unit * OrderStateManager :=
  let m1 :=
    match order_states m !! order_id with
    | None => initialize_order m order_id t0
    | Some _ => m
    end in
  let m2 :=
    {| order_states := <[order_id := new_state]> (order_states m1);
       order_history := order_history m1;
       retry_attempts := retry_attempts m1;
       max_retries := max_retries m1 |} in
  match order_history m2 !! order_id with
  | None => (Raise (KeyError order_id), m2)
  | Some h =>
      (Ok tt,
       {| order_states := order_states m2;
          order_history :=
            <[order_id := h ++ [mkEntry new_state t1 dt]]> (order_history m2);
          retry_attempts := retry_attempts m2;
          max_retries := max_retries m2 |})
  end.

(** [get_current_state(order_id)] *)
Definition get_current_state (m : OrderStateManager) (order_id : string)
    : option OrderState :=
  order_states m !! order_id.

(** [get_state_history(order_id)] *)
Definition get_state_history (m : OrderStateManager) (order_id : string)
    : list HistoryEntry :=
  default [] (order_history m !! order_id).

(** [current_state in [OrderState.ERROR, OrderState.REJECTED]] *)
Definition retryable (s : OrderState) : bool :=
  match s with
  | ERROR | REJECTED => true
  | _ => false
  end.

(** [should_retry(order_id)].  [retry_attempts[order_id] += 1] raises
    [KeyError] when the counter is missing. *)
Definition should_retry (m : OrderStateManager) (order_id : string)
    : outcome bool * OrderStateManager :=
  match order_states m !! order_id with
  | None => (Ok false, m)
  | Some current_state =>
      let retry_count := default 0%Z (retry_attempts m !! order_id) in
      if (retryable current_state && (retry_count <? max_retries m)%Z)%bool
      then
        match retry_attempts m !! order_id with
        | None => (Raise (KeyError order_id), m)
        | Some n =>
            (Ok true,
             {| order_states := order_states m;
                order_history := order_history m;
                retry_attempts := <[order_id := (n + 1)%Z]> (retry_attempts m);
                max_retries := max_retries m |})
        end
      else (Ok false, m)
  end.

(** The [status_mapping] dictionary of [reconcile_with_exchange]. *)
Definition status_mapping : gmap string OrderState :=
  list_to_map
    [ ("new", SENT); ("open", SENT); ("closed", FILLED);
      ("canceled", CANCELED); ("expired", CANCELED);
      ("rejected", REJECTED); ("failed", ERROR) ].

(** The state chosen by [reconcile_with_exchange]: the partial-fill test
    compares the status as received, the table is consulted with the
    lower-cased status. *)
Definition reconcile_state (exchange_status : string)
    (dt : gmap string value) : OrderState :=
  if (String.eqb exchange_status "closed"
      && negb (py_eqb (dict_get dt "filled") (dict_get dt "amount")))%bool
  then PARTIALLY_FILLED
  else default ERROR (status_mapping !! lower exchange_status).

(** [reconcile_with_exchange(order_id, exchange_status, details)] *)
Definition reconcile_with_exchange (m : OrderStateManager)
    (order_id : string) (exchange_status : string)
    (dt : gmap string value) (t0 t1 : Z)
    : outcome unit * OrderStateManager :=
  update_state m order_id (reconcile_state exchange_status dt) (Some dt) t0 t1.

End OrderStateM.

(** Operations of an [OrderStateManager], for reasoning about sequences
    of calls. *)
Module OrderOps.
Import OrderStateM.

Inductive op : Type :=
  | InitializeOrder (order_id : string) (now : Z)
  | UpdateState (order_id : string) (new_state : OrderState)
      (dt : option (gmap string value)) (t0 t1 : Z)
  | GetCurrentState (order_id : string)
  | GetStateHistory (order_id : string)
  | ShouldRetry (order_id : string)
  | Reconcile (order_id : string) (exchange_status : string)
      (dt : gmap string value) (t0 t1 : Z).

(** The manager after one call. *)
Definition step (m : OrderStateManager) (o : op) : OrderStateManager :=
  match o with
  | InitializeOrder k now => initialize_order m k now
  | UpdateState k s dt t0 t1 => snd (update_state m k s dt t0 t1)
  | GetCurrentState _ => m
  | GetStateHistory _ => m
  | ShouldRetry k => snd (should_retry m k)
  | Reconcile k st dt t0 t1 => snd (reconcile_with_exchange m k st dt t0 t1)
  end.

Definition run (m : OrderStateManager) (ops : list op) : OrderStateManager :=
  fold_left step ops m.

(** Did the call [o], made in state [m], answer [True] to
    [should_retry(k)]? *)
Definition granted (k : string) (m : OrderStateManager) (o : op) : bool :=
  match o with
  | ShouldRetry k' =>
      if decide (k' = k)
      then match fst (should_retry m k') with Ok true => true | _ => false end
      else false
  | _ => false
  end.

(** Number of [should_retry(k)] calls of [ops] answered [True], running
    the calls in order from [m]. *)
Fixpoint grants (k : string) (m : OrderStateManager) (ops : list op) : nat :=
  match ops with
  | [] => 0
  | o :: ops' =>
      (if granted k m o then 1 else 0) + grants k (step m o) ops'
  end.

(** The answers of the [should_retry] calls of [ops], in order. *)
Fixpoint answers (m : OrderStateManager) (ops : list op)
    : list (outcome bool) :=
  match ops with
  | [] => []
  | ShouldRetry k :: ops' =>
      fst (should_retry m k) :: answers (step m (ShouldRetry k)) ops'
  | o :: ops' => answers (step m o) ops'
  end.

(** [o] is an explicit [initialize_order(k)]. *)
Definition reinitializes (k : string) (o : op) : bool :=
  match o with
  | InitializeOrder k' _ => bool_decide (k' = k)
  | _ => false
  end.

End OrderOps.

(** * A state-and-exception monad for the stateful classes *)

Definition M (S A : Type) : Type := S -> outcome A * S.

Definition ret {S A} (a : A) : M S A := fun s => (Ok a, s).

Definition bind {S A B} (c : M S A) (f : A -> M S B) : M S B :=
  fun s =>
    match c s with
    | (Ok a, s') => f a s'
    | (Raise e, s') => (Raise e, s')
    end.

Definition raise {S A} (e : exn) : M S A := fun s => (Raise e, s).

Definition lift_outcome {S A} (o : outcome A) : M S A := fun s => (o, s).

Definition gets {S A} (f : S -> A) : M S A := fun s => (Ok (f s), s).

Definition modify {S} (f : S -> S) : M S unit := fun s => (Ok tt, f s).

(** [try: body except Exception as e: handler(e)] *)
Definition try_except {S A} (body : M S A) (handler : exn -> M S A)
    : M S A :=
  fun s =>
    match body s with
    | (Ok a, s') => (Ok a, s')
    | (Raise e, s') => handler e s'
    end.

Notation "'let*' x ':=' c 'in' k" := (bind c (fun x => k))
  (at level 10, x pattern, c at level 100, k at level 200).
Notation "c ';;;' k" := (bind c (fun _ => k))
  (at level 100, k at level 200, right associativity).

(** ** Dictionaries used as records *)

(** An entry of such a dictionary: the key is absent, it holds [None],
    or it holds a value. *)
Inductive entry (A : Type) : Type :=
  | Absent
  | Null
  | Val (a : A).
Arguments Absent {A}.
Arguments Null {A}.
Arguments Val {A} a.

(** [d.get(k)]: [None] for an absent key and for one that holds [None]. *)
Definition get {A} (e : entry A) : option A :=
  match e with
  | Val a => Some a
  | Absent | Null => None
  end.

(** [d.get(k, fallback)]: the fallback stands in for an absent key only;
    a key that holds [None] gives [None]. *)
Definition get_default {A} (e : entry A) (fallback : option A) : option A :=
  match e with
  | Absent => fallback
  | Null => None
  | Val a => Some a
  end.

(** [k in d] *)
Definition has_key {A} (e : entry A) : bool :=
  match e with
  | Absent => false
  | Null | Val _ => true
  end.

(** The entry after [d[k] = v]. *)
Definition holding {A} (v : option A) : entry A :=
  match v with
  | Some a => Val a
  | None => Null
  end.

(** ** Numbers *)

(** A Python number: an [int] or a finite [float]. *)
Inductive number : Type :=
  | PyInt (z : Z)
  | PyFloat (q : Q).

Definition num_val (n : number) : Q :=
  match n with
  | PyInt z => inject_Z z
  | PyFloat q => q
  end.

(** [type(v).__name__], as error messages quote it. *)
Definition type_name (v : option number) : string :=
  match v with
  | None => "NoneType"
  | Some (PyInt _) => "int"
  | Some (PyFloat _) => "float"
  end.

(** The results of [x * y], [x + y] and [x / y] on two numbers: exact
    on [int]s, rounded on [float]s, and for [/] possibly an exception.
    They are parameters of everything that computes, so that a
    statement holds whatever Python rounds; a result that is not finite
    (an overflow) is outside the model. *)
Record Arith : Type := mkArith {
  fmul : Q -> Q -> Q;
  fadd : Q -> Q -> Q;
  fdiv : Q -> Q -> outcome Q
}.

(** [x / y] without rounding: [ZeroDivisionError] when [y == 0]. *)
Definition py_div (x y : Q) : outcome Q :=
  if Qeq_bool y 0
  then Raise (ZeroDivisionError "division by zero")
  else Ok (x / y)%Q.

(** The arithmetic of the rationals. *)
Definition exact : Arith :=
  {| fmul := Qmult; fadd := Qplus; fdiv := py_div |}.

(** Floats that may be [float('inf')]. *)
Inductive pyfloat : Type :=
  | Fin (q : Q)
  | Inf.

Definition Qlt_bool (a b : Q) : bool := negb (Qle_bool b a).

(** [a > b] *)
Definition pf_gt (a b : pyfloat) : bool :=
  match a, b with
  | Fin x, Fin y => Qlt_bool y x
  | Inf, Fin _ => true
  | _, Inf => false
  end.

(** [a + b] (no negative infinity occurs) *)
Definition pf_add (ar : Arith) (a b : pyfloat) : pyfloat :=
  match a, b with
  | Fin x, Fin y => Fin (fadd ar x y)
  | _, _ => Inf
  end.

(** [x * y] where either operand may be [None]: the [TypeError] names
    the types of the two operands. *)
Definition py_mul (ar : Arith) (x y : option number) : outcome Q :=
  match x, y with
  | Some a, Some b => Ok (fmul ar (num_val a) (num_val b))
  | _, _ =>
      Raise (TypeError ("unsupported operand type(s) for *: '"
                        +:+ type_name x +:+ "' and '"
                        +:+ type_name y +:+ "'"))
  end.

(** [x > 0], evaluated for its exception: [None > 0] raises. *)
Definition compared_with_zero (x : option Q) : outcome Q :=
  match x with
  | Some q => Ok q
  | None =>
      Raise (TypeError
               "'>' not supported between instances of 'NoneType' and 'int'")
  end.

(** [s.lower()] where [s] may be [None]. *)
Definition lower_opt (s : option string) : outcome string :=
  match s with
  | Some s => Ok (lower s)
  | None => Raise (AttributeError "'NoneType' object has no attribute 'lower'")
  end.

(** [f"{s}"] where [s] may be [None]. *)
Definition str_opt (s : option string) : string :=
  match s with
  | Some s => s
  | None => "None"
  end.

(** The format specifications used in the messages: [:.2%], [:.2f] and
    the default formatting of an [int]. *)
Record Formatter : Type := mkFormatter {
  fmt_pct : pyfloat -> string;
  fmt_2f : Q -> string;
  fmt_int : Z -> string
}.

(** ** Orders *)

(** The order dictionary ([order_data] / [order]): the keys that the
    risk manager and the order manager read or write.  An order posted
    through the API is [OrderCreate.dict()], in which [order_id] is
    present and holds [None] unless the client supplied one. *)
Record OrderData : Type := mkOrder {
  o_order_id : entry string;
  o_symbol : entry string;
  o_side : entry string;
  o_quantity : entry number;
  o_price : entry number;
  o_order_type : entry string;
  o_exchange_order_id : entry string;
  o_status : entry string;
  o_timestamp : entry string
}.

(** * risk_manager/risk_manager.py *)

Module RiskM.

(** A position dictionary, as built by [_handle_order_filled]. *)
Record Position : Type := mkPosition {
  p_symbol : option string;
  p_side : option string;
  p_quantity : option Q;
  p_price : option Q;
  p_value : option Q
}.

(** A trade dictionary, as read by [record_trade]. *)
Record Trade : Type := mkTrade {
  t_symbol : option string;
  t_is_closing_trade : option bool;
  t_pnl : option Q
}.

(** The result dictionary of [evaluate_order]. *)
Record RiskDecision : Type := mkDecision {
  approved : bool;
  reason : option string
}.

Record RiskManager : Type := mkRisk {
  max_position_size : Q;
  max_daily_loss : Q;
  max_open_positions : Z;
  max_exposure_per_asset : Q;
  open_positions : gmap (option string) Position;
  daily_pnl : Q;
  daily_trades : list Trade;
  last_reset : Z
}.

(** [__init__] with the default configuration; [now] is the reading of
    [datetime.utcnow()]. *)
Definition init (now : Z) : RiskManager :=
  {| max_position_size := 5 # 100;
     max_daily_loss := 2 # 100;
     max_open_positions := 5;
     max_exposure_per_asset := 10 # 100;
     open_positions := ∅;
     daily_pnl := 0;
     daily_trades := [];
     last_reset := now |}.

Definition set_positions (f : gmap (option string) Position
                              -> gmap (option string) Position)
    (rm : RiskManager) : RiskManager :=
  {| max_position_size := max_position_size rm;
     max_daily_loss := max_daily_loss rm;
     max_open_positions := max_open_positions rm;
     max_exposure_per_asset := max_exposure_per_asset rm;
     open_positions := f (open_positions rm);
     daily_pnl := daily_pnl rm;
     daily_trades := daily_trades rm;
     last_reset := last_reset rm |}.

Definition set_daily_pnl (f : Q -> Q) (rm : RiskManager) : RiskManager :=
  {| max_position_size := max_position_size rm;
     max_daily_loss := max_daily_loss rm;
     max_open_positions := max_open_positions rm;
     max_exposure_per_asset := max_exposure_per_asset rm;
     open_positions := open_positions rm;
     daily_pnl := f (daily_pnl rm);
     daily_trades := daily_trades rm;
     last_reset := last_reset rm |}.

Definition set_daily_trades (f : list Trade -> list Trade)
    (rm : RiskManager) : RiskManager :=
  {| max_position_size := max_position_size rm;
     max_daily_loss := max_daily_loss rm;
     max_open_positions := max_open_positions rm;
     max_exposure_per_asset := max_exposure_per_asset rm;
     open_positions := open_positions rm;
     daily_pnl := daily_pnl rm;
     daily_trades := f (daily_trades rm);
     last_reset := last_reset rm |}.

Definition set_last_reset (now : Z) (rm : RiskManager) : RiskManager :=
  {| max_position_size := max_position_size rm;
     max_daily_loss := max_daily_loss rm;
     max_open_positions := max_open_positions rm;
     max_exposure_per_asset := max_exposure_per_asset rm;
     open_positions := open_positions rm;
     daily_pnl := daily_pnl rm;
     daily_trades := daily_trades rm;
     last_reset := now |}.

(** [reset_daily_metrics()] *)
Definition reset_daily_metrics (now : Z) : M RiskManager unit :=
  modify (set_daily_pnl (fun _ => 0%Q)) ;;;
  modify (set_daily_trades (fun _ => [])) ;;;
  modify (set_last_reset now).

(** The loop of [evaluate_order] that adds up [pos_data.get("value", 0)]
    over the positions whose key equals [symbol].  At most one key is
    equal to [symbol], so the only addition that changes the total is
    [0 + value], which no arithmetic rounds. *)
Definition exposure_of (symbol : option string)
    (positions : gmap (option string) Position) : Q :=
  map_fold
    (fun pos_symbol pos_data current_exposure =>
       if decide (pos_symbol = symbol)
       then (current_exposure + default 0 (p_value pos_data))%Q
       else current_exposure)
    0%Q positions.

Definition reject (why : string) : RiskDecision :=
  {| approved := false; reason := Some why |}.

Section Evaluate.

(** The formatter of the messages and the arithmetic. *)
Context (F : Formatter) (ar : Arith).

(** [order.get("quantity", 0) * order.get("price", 0)] *)
Definition order_value_of (order : OrderData) : outcome Q :=
  py_mul ar (get_default (o_quantity order) (Some (PyInt 0)))
            (get_default (o_price order) (Some (PyInt 0))).

(** [order_value / account_balance if account_balance > 0 else float('inf')] *)
Definition position_size_pct_of (order_value account_balance : Q)
    : outcome pyfloat :=
  if Qlt_bool 0 account_balance
  then match fdiv ar order_value account_balance with
       | Ok q => Ok (Fin q)
       | Raise e => Raise e
       end
  else Ok Inf.

(** [current_exposure / account_balance if account_balance > 0 else 0] *)
Definition current_exposure_pct_of (current_exposure account_balance : Q)
    : outcome Q :=
  if Qlt_bool 0 account_balance
  then fdiv ar current_exposure account_balance
  else Ok 0%Q.

(** [evaluate_order(order, account_balance)].  [account_balance] is
    [None] when the caller passes [None]: the first thing done with it,
    the comparison [account_balance > 0], then raises [TypeError]; past
    that comparison it is a number. *)
Definition evaluate_order (order : OrderData) (account_balance : option Q)
    : M RiskManager RiskDecision :=
  let symbol := get (o_symbol order) in
  let side := get (o_side order) in
  let* order_value := lift_outcome (order_value_of order) in
  let* account_balance := lift_outcome (compared_with_zero account_balance) in
  let* position_size_pct :=
    lift_outcome (position_size_pct_of order_value account_balance) in
  (* Check position size limit *)
  let* max_position_size := gets max_position_size in
  if pf_gt position_size_pct (Fin max_position_size)
  then ret (reject ("Position size " +:+ fmt_pct F position_size_pct
                    +:+ " exceeds maximum "
                    +:+ fmt_pct F (Fin max_position_size)))
  else
  (* Check maximum open positions *)
  let* open_positions := gets open_positions in
  let* max_open_positions := gets max_open_positions in
  let* too_many :=
    if (max_open_positions <=? Z.of_nat (size open_positions))%Z
    then let* side_l := lift_outcome (lower_opt side) in
         ret (String.eqb side_l "buy")
    else ret false in
  if (too_many : bool)
  then ret (reject ("Maximum open positions ("
                    +:+ fmt_int F max_open_positions +:+ ") reached"))
  else
  (* Check asset exposure *)
  let current_exposure := exposure_of symbol open_positions in
  let* current_exposure_pct :=
    lift_outcome (current_exposure_pct_of current_exposure account_balance) in
  let* side_l := lift_outcome (lower_opt side) in
  let new_exposure_pct :=
    if String.eqb side_l "buy"
    then pf_add ar (Fin current_exposure_pct) position_size_pct
    else Fin current_exposure_pct in
  let* max_exposure_per_asset := gets max_exposure_per_asset in
  if pf_gt new_exposure_pct (Fin max_exposure_per_asset)
  then ret (reject ("Total exposure to " +:+ str_opt symbol +:+ " ("
                    +:+ fmt_pct F new_exposure_pct
                    +:+ ") exceeds maximum "
                    +:+ fmt_pct F (Fin max_exposure_per_asset)))
  else
  (* Check daily loss limit *)
  let* daily_pnl := gets daily_pnl in
  let* max_daily_loss := gets max_daily_loss in
  if (Qlt_bool daily_pnl 0
      && Qlt_bool (fmul ar account_balance max_daily_loss)
           (Qabs daily_pnl))%bool
  then ret (reject ("Daily loss limit reached ("
                    +:+ fmt_2f F (Qabs daily_pnl) +:+ " > "
                    +:+ fmt_2f F (fmul ar account_balance max_daily_loss)
                    +:+ ")"))
  else ret {| approved := true; reason := None |}.

End Evaluate.

(** [record_position_open(position)] *)
Definition record_position_open (position : Position)
    : M RiskManager unit :=
  let symbol := p_symbol position in
  modify (set_positions (fun ps => <[symbol := position]> ps)).

(** [record_position_close(symbol, pnl)] *)
Definition record_position_close (ar : Arith) (symbol : option string)
    (pnl : Q) : M RiskManager unit :=
  let* open_positions := gets open_positions in
  match open_positions !! symbol with
  | Some _ =>
      modify (set_positions (fun ps => delete symbol ps)) ;;;
      modify (set_daily_pnl (fun d => fadd ar d pnl))
  | None => ret tt
  end.

(** [record_trade(trade)] *)
Definition record_trade (ar : Arith) (trade : Trade) : M RiskManager unit :=
  modify (set_daily_trades (fun ts => ts ++ [trade])) ;;;
  if default false (t_is_closing_trade trade)
  then let pnl := default 0%Q (t_pnl trade) in
       modify (set_daily_pnl (fun d => fadd ar d pnl))
  else ret tt.

(** Calls that record positions, and their effect in sequence. *)
Inductive call : Type :=
  | Open (position : Position)
  | Close (symbol : option string) (pnl : Q).

Definition do_call (ar : Arith) (rm : RiskManager) (c : call)
    : RiskManager :=
  match c with
  | Open position => snd (record_position_open position rm)
  | Close symbol pnl => snd (record_position_close ar symbol pnl rm)
  end.

Definition do_calls (ar : Arith) (rm : RiskManager) (cs : list call)
    : RiskManager :=
  fold_left (do_call ar) cs rm.

(** The realized-P&L arguments of the [record_position_close] calls of
    a sequence, in order. *)
Fixpoint close_pnls (cs : list call) : list Q :=
  match cs with
  | [] => []
  | Open _ :: cs' => close_pnls cs'
  | Close _ pnl :: cs' => pnl :: close_pnls cs'
  end.

(** The arguments of those [record_position_close] calls that find a
    position under their symbol when the sequence is run from [rm]. *)
Fixpoint effective_pnls (ar : Arith) (rm : RiskManager) (cs : list call)
    : list Q :=
  match cs with
  | [] => []
  | c :: cs' =>
      match c with
      | Close symbol pnl =>
          match open_positions rm !! symbol with
          | Some _ => [pnl]
          | None => []
          end
      | Open _ => []
      end ++ effective_pnls ar (do_call ar rm c) cs'
  end.

(** The sum of a list, and the total that the program accumulates by
    adding the elements one after the other to [start]. *)
Definition Qsum (l : list Q) : Q := fold_right Qplus 0%Q l.

Definition accumulated (ar : Arith) (start : Q) (l : list Q) : Q :=
  fold_left (fadd ar) l start.

End RiskM.

(** * order_manager/order_manager.py *)

Module OrderManagerM.
Import RiskM.

(** The [fee] entry of a venue reply: absent, [None], or a dictionary
    with its [cost] entry. *)
Inductive Fee : Type :=
  | FeeAbsent
  | FeeNull
  | FeeDict (cost : entry number).

(** A non-empty dictionary returned by the exchange adapter.  [id],
    [symbol] and [error] are read with [d.get(k)] only and are what it
    returns; [status], [filled] and [price] are also read with a
    fallback. *)
Record VenueReply : Type := mkReply {
  r_id : option string;
  r_status : entry string;
  r_symbol : option string;
  r_filled : entry number;
  r_price : entry number;
  r_fee : Fee;
  r_error : option string
}.

(** The dictionary returned by [get_account_info]. *)
Record AccountInfo : Type := mkAccount {
  a_balance : entry number
}.

(** The [trade_data] dictionary, built with all its keys. *)
Record TradeData : Type := mkTradeData {
  td_order_id : option string;
  td_exchange_order_id : option string;
  td_symbol : option string;
  td_side : option string;
  td_quantity : option number;
  td_price : option number;
  td_fee : option number;
  td_timestamp : string
}.

(** Messages handed to [event_bus.publish]. *)
Inductive Payload : Type :=
  | OrderRejected (order_id : option string) (reason : option string)
      (timestamp : string)
  | OrderCreated (order_data : OrderData)
  | TradeExecuted (trade_data : TradeData)
  | OrderError (order_id : option string) (error : string)
      (timestamp : string)
  | OrderCanceled (order_id : string) (timestamp : string).

(** Calls made on the exchange adapter. *)
Inductive VenueCall : Type :=
  | CallGetAccountInfo
  | CallCreateOrder (symbol side : option string) (quantity : option number)
      (order_type : option string) (price : option number)
  | CallCancelOrder (order_id : string) (symbol : option string)
  | CallGetOrderStatus (order_id : string).

(** The collaborators of the order manager: what the exchange adapter
    answers (a value or an exception; [None] for a reply that is [None]
    or an empty dictionary, [true] for a truthy cancel result), whether
    the transport accepts a message, the clock, the id generator, the
    formatting of numbers and their arithmetic. *)
Record Env : Type := mkEnv {
  venue_get_account_info : outcome AccountInfo;
  venue_create_order :
    option string -> option string -> option number -> option string
    -> option number -> outcome (option VenueReply);
  venue_cancel_order : string -> option string -> outcome bool;
  venue_get_order_status : string -> outcome (option VenueReply);
  redis_publish : string -> Payload -> outcome unit;
  utcnow_iso : nat -> string;
  uuid_hex8 : string;
  formatter : Formatter;
  arith : Arith
}.

(** The order manager together with the observable trace of its
    collaborators: the messages accepted by the event bus and the calls
    received by the exchange adapter. *)
Record OrderManager : Type := mkOM {
  running : bool;
  risk_manager : RiskManager;
  published : list (string * Payload);
  venue_calls : list VenueCall;
  clock_reads : nat
}.

(** [__init__]: not running until [start()]. *)
Definition init (rm : RiskManager) : OrderManager :=
  {| running := false; risk_manager := rm; published := [];
     venue_calls := []; clock_reads := 0 |}.

(** [start()] *)
Definition start : M OrderManager unit :=
  fun w =>
    (Ok tt,
     {| running := true; risk_manager := risk_manager w;
        published := published w; venue_calls := venue_calls w;
        clock_reads := clock_reads w |}).

(** [stop()] *)
Definition stop : M OrderManager unit :=
  fun w =>
    (Ok tt,
     {| running := false; risk_manager := risk_manager w;
        published := published w; venue_calls := venue_calls w;
        clock_reads := clock_reads w |}).

Section Manager.

Context (env : Env).

(** [datetime.utcnow().isoformat()] *)
Definition utcnow : M OrderManager string :=
  fun w =>
    (Ok (utcnow_iso env (clock_reads w)),
     {| running := running w; risk_manager := risk_manager w;
        published := published w; venue_calls := venue_calls w;
        clock_reads := S (clock_reads w) |}).

(** [await self.event_bus.publish(channel, message)] *)
Definition publish (channel : string) (message : Payload)
    : M OrderManager unit :=
  fun w =>
    match redis_publish env channel message with
    | Ok _ =>
        (Ok tt,
         {| running := running w; risk_manager := risk_manager w;
            published := published w ++ [(channel, message)];
            venue_calls := venue_calls w; clock_reads := clock_reads w |})
    | Raise e => (Raise e, w)
    end.

(** A call on the exchange adapter: logged, then answered. *)
Definition venue {A} (c : VenueCall) (answer : outcome A)
    : M OrderManager A :=
  fun w =>
    (answer,
     {| running := running w; risk_manager := risk_manager w;
        published := published w; venue_calls := venue_calls w ++ [c];
        clock_reads := clock_reads w |}).

(** A call on [self.risk_manager]. *)
Definition with_risk {A} (c : M RiskManager A) : M OrderManager A :=
  fun w =>
    let '(r, rm) := c (risk_manager w) in
    (r,
     {| running := running w; risk_manager := rm;
        published := published w; venue_calls := venue_calls w;
        clock_reads := clock_reads w |}).

(** The local frame of [process_order]: the manager and the caller's
    [order_data] dictionary, which the method updates in place. *)
Record Frame : Type := mkFrame {
  self : OrderManager;
  order_data : OrderData
}.

Definition on_self {A} (c : M OrderManager A) : M Frame A :=
  fun f =>
    let '(r, w) := c (self f) in
    (r, {| self := w; order_data := order_data f |}).

Definition set_order_data (g : OrderData -> OrderData) : M Frame unit :=
  modify (fun f => {| self := self f; order_data := g (order_data f) |}).

(** [order_data['order_id'] = id] *)
Definition set_order_id (id : string) (o : OrderData) : OrderData :=
  {| o_order_id := Val id; o_symbol := o_symbol o; o_side := o_side o;
     o_quantity := o_quantity o; o_price := o_price o;
     o_order_type := o_order_type o;
     o_exchange_order_id := o_exchange_order_id o;
     o_status := o_status o; o_timestamp := o_timestamp o |}.

(** [order_data.update({"exchange_order_id": result.get("id"),
    "status": result.get("status", OrderState.PENDING),
    "timestamp": ...})]; [OrderState.PENDING] of this module is the
    string ["pending"]. *)
Definition update_with_reply (result : VenueReply) (now : string)
    (o : OrderData) : OrderData :=
  {| o_order_id := o_order_id o; o_symbol := o_symbol o; o_side := o_side o;
     o_quantity := o_quantity o; o_price := o_price o;
     o_order_type := o_order_type o;
     o_exchange_order_id := holding (r_id result);
     o_status := holding (get_default (r_status result) (Some "pending"));
     o_timestamp := Val now |}.

(** [order_data['order_id']] *)
Definition order_id_of (o : OrderData) : outcome (option string) :=
  match o_order_id o with
  | Absent => Raise (KeyError "order_id")
  | Null => Ok None
  | Val id => Ok (Some id)
  end.

(** [account_info.get('balance', 0)] *)
Definition balance_of (account_info : AccountInfo) : option Q :=
  num_val <$> get_default (a_balance account_info) (Some (PyInt 0)).

(** [result.get("fee", {}).get("cost", 0)] *)
Definition fee_cost (fee : Fee) : outcome (option number) :=
  match fee with
  | FeeAbsent => Ok (Some (PyInt 0))
  | FeeNull =>
      Raise (AttributeError "'NoneType' object has no attribute 'get'")
  | FeeDict cost => Ok (get_default cost (Some (PyInt 0)))
  end.

(** [result.get("status") in ["filled", "closed"]] *)
Definition is_filled_status (st : option string) : bool :=
  match st with
  | Some s => (String.eqb s "filled" || String.eqb s "closed")%bool
  | None => false
  end.

(** [_handle_order_filled(order_data, result)] *)
Definition _handle_order_filled (result : VenueReply) : M Frame unit :=
  let* od := gets order_data in
  let* fee := lift_outcome (fee_cost (r_fee result)) in
  let* now := on_self utcnow in
  let trade_data :=
    {| td_order_id := get (o_order_id od);
       td_exchange_order_id := r_id result;
       td_symbol := get (o_symbol od);
       td_side := get (o_side od);
       td_quantity := get_default (r_filled result) (get (o_quantity od));
       td_price := get_default (r_price result) (get (o_price od));
       td_fee := fee;
       td_timestamp := now |} in
  on_self (publish "trade.executed" (TradeExecuted trade_data)) ;;;
  let* value :=
    lift_outcome
      (py_mul (arith env) (td_quantity trade_data) (td_price trade_data)) in
  let position_data :=
    {| p_symbol := get (o_symbol od);
       p_side := get (o_side od);
       p_quantity := num_val <$> td_quantity trade_data;
       p_price := num_val <$> td_price trade_data;
       p_value := Some value |} in
  let* side_l := lift_outcome (lower_opt (get (o_side od))) in
  if String.eqb side_l "buy"
  then on_self (with_risk (record_position_open position_data))
  else on_self (with_risk
                  (record_position_close (arith env) (get (o_symbol od))
                     value)).

(** The [try] block of [process_order]. *)
Definition process_order_body : M Frame (option VenueReply) :=
  (* Generate internal order ID if not provided *)
  let* od0 := gets order_data in
  (if has_key (o_order_id od0)
   then ret tt
   else set_order_data (set_order_id ("order_" +:+ uuid_hex8 env))) ;;;
  (* Validate order through risk manager *)
  let* account_info :=
    on_self (venue CallGetAccountInfo (venue_get_account_info env)) in
  let account_balance := balance_of account_info in
  let* od := gets order_data in
  let* risk_result :=
    on_self (with_risk
               (evaluate_order (formatter env) (arith env) od
                  account_balance)) in
  if negb (approved risk_result)
  then
    let* id := lift_outcome (order_id_of od) in
    let* now := on_self utcnow in
    on_self (publish "order.rejected"
               (OrderRejected id (reason risk_result) now)) ;;;
    ret None
  else
  (* Send order to exchange *)
  let symbol := get (o_symbol od) in
  let side := get (o_side od) in
  let quantity := get (o_quantity od) in
  let order_type := get_default (o_order_type od) (Some "market") in
  let price := get (o_price od) in
  let* result :=
    on_self (venue (CallCreateOrder symbol side quantity order_type price)
               (venue_create_order env symbol side quantity order_type
                  price)) in
  match result with
  | None => ret None
  | Some result =>
      (* Update order data with exchange information *)
      let* now := on_self utcnow in
      set_order_data (update_with_reply result now) ;;;
      (* Publish order created event *)
      let* od' := gets order_data in
      on_self (publish "order.created" (OrderCreated od')) ;;;
      (* If order is filled immediately, handle the fill *)
      (if is_filled_status (get (r_status result))
       then _handle_order_filled result
       else ret tt) ;;;
      ret (Some result)
  end.

(** The [except Exception as e] block of [process_order]. *)
Definition process_order_handler (e : exn) : M Frame (option VenueReply) :=
  let* od := gets order_data in
  let* now := on_self utcnow in
  on_self (publish "order.error"
             (OrderError (get_default (o_order_id od) (Some "unknown"))
                (str_exn e) now)) ;;;
  ret None.

(** [process_order(order_data)]: [None] is Python's [None]. *)
Definition process_order : M Frame (option VenueReply) :=
  let* is_running := gets (fun f => running (self f)) in
  if negb is_running
  then ret None
  else try_except process_order_body process_order_handler.

Definition error_reply (msg : string) : VenueReply :=
  {| r_id := None; r_status := Val "error"; r_symbol := None;
     r_filled := Absent; r_price := Absent; r_fee := FeeAbsent;
     r_error := Some msg |}.

(** [get_order_status(order_id)] *)
Definition get_order_status (order_id : string)
    : M OrderManager VenueReply :=
  let* is_running := gets running in
  if negb is_running
  then ret (error_reply "Order manager not running")
  else
    try_except
      (let* result :=
         venue (CallGetOrderStatus order_id)
           (venue_get_order_status env order_id) in
       match result with
       | None => ret (error_reply "Failed to get order status")
       | Some result => ret result
       end)
      (fun e => ret (error_reply (str_exn e))).

(** [current_status in ["filled", "canceled", "expired"]] *)
Definition not_cancelable (st : option string) : bool :=
  match st with
  | Some s =>
      (String.eqb s "filled" || String.eqb s "canceled"
       || String.eqb s "expired")%bool
  | None => false
  end.

(** [order_status.get("status") == "error"] *)
Definition is_error_status (st : option string) : bool :=
  match st with
  | Some s => String.eqb s "error"
  | None => false
  end.

(** [cancel_order(order_id)] *)
Definition cancel_order (order_id : string) : M OrderManager bool :=
  let* is_running := gets running in
  if negb is_running
  then ret false
  else
    try_except
      ((* Get order details from exchange *)
       let* order_status := get_order_status order_id in
       if is_error_status (get (r_status order_status))
       then ret false
       else
       (* Check if order can be canceled *)
       let current_status := get (r_status order_status) in
       if not_cancelable current_status
       then ret false
       else
       (* Send cancel request to exchange *)
       let symbol := r_symbol order_status in
       let* result :=
         venue (CallCancelOrder order_id symbol)
           (venue_cancel_order env order_id symbol) in
       if negb result
       then ret false
       else
       (* Publish cancel event *)
       let* now := utcnow in
       publish "order.canceled" (OrderCanceled order_id now) ;;;
       ret true)
      (fun _ => ret false).

End Manager.

End OrderManagerM.

(** * A formatter for rationals

    [:.2f] and [:.2%] on rationals, rounding half to even; used to run
    the model on concrete inputs. *)

Module DecimalFormat.

Definition round_half_even (q : Q) : Z :=
  let f := Qfloor q in
  match Qcompare (q - inject_Z f) (1 # 2) with
  | Lt => f
  | Gt => (f + 1)%Z
  | Eq => if Z.even f then f else (f + 1)%Z
  end.

Definition two_digits (n : Z) : string :=
  if (n <? 10)%Z then "0" +:+ pretty n else pretty n.

Definition fixed2 (q : Q) : string :=
  let n := round_half_even (q * 100) in
  let a := Z.abs n in
  (if (n <? 0)%Z then "-" else "")
  +:+ pretty (a / 100)%Z +:+ "." +:+ two_digits (a mod 100)%Z.

Definition percent2 (x : pyfloat) : string :=
  match x with
  | Fin q => fixed2 (q * 100) +:+ "%"
  | Inf => "inf%"
  end.

Definition python_format : Formatter :=
  {| fmt_pct := percent2; fmt_2f := fixed2; fmt_int := pretty |}.

End DecimalFormat.

(** * Predicates used in the statements *)

Module Props.
Import OrderStateM OrderOps.

(** Every known order has a non-empty history whose last entry carries
    the order's current state. *)
Definition history_tracks_state (m : OrderStateManager) : Prop :=
  forall k s,
    order_states m !! k = Some s ->
    exists h, order_history m !! k = Some h /\ state <$> last h = Some s.

(** The retry counter of [k], as [should_retry] reads it. *)
Definition retry_count (m : OrderStateManager) (k : string) : Z :=
  default 0%Z (retry_attempts m !! k).

(** What is left of the retry ceiling for [k]: an order that is not yet
    known starts with the whole ceiling when it is first recorded. *)
Definition budget (m : OrderStateManager) (k : string) : Z :=
  match order_states m !! k with
  | None => max_retries m
  | Some _ =>
      match retry_attempts m !! k with
      | Some n => (max_retries m - n)%Z
      | None => 0%Z
      end
  end.

(** The status mapping as the specification words it: the listed venue
    statuses, and [ERROR] for a status that is none of them. *)
Definition listed_statuses : list string :=
  ["new"; "open"; "closed"; "canceled"; "expired"; "rejected"].

Definition claimed_state (st : string) (dt : gmap string value)
    : OrderState :=
  if (String.eqb st "new" || String.eqb st "open")%bool then SENT
  else if String.eqb st "closed"
  then if py_eqb (dict_get dt "filled") (dict_get dt "amount")
       then FILLED else PARTIALLY_FILLED
  else if (String.eqb st "canceled" || String.eqb st "expired")%bool
  then CANCELED
  else if String.eqb st "rejected" then REJECTED
  else ERROR.

(** The venue detail of Scenario D: [{filled: 0.4, amount: 1.0}]. *)
Definition partial_fill_detail : gmap string value :=
  <["filled" := VNum (4 # 10)]> (<["amount" := VNum 1]> ∅).

(** [needle] occurs in [hay]. *)
Definition mentions (hay needle : string) : Prop :=
  exists pre post, hay = pre +:+ needle +:+ post.

(** A computation that leaves the state as it found it, whatever it
    returns or raises. *)
Definition read_only {S A} (c : M S A) : Prop :=
  forall s, snd (c s) = s.

(** Scenario A: a risk manager configured with [max_position_size = 0.1]
    and a buy of 0.5 at 20,000. *)
Definition scenario_a_risk : RiskM.RiskManager :=
  {| RiskM.max_position_size := 1 # 10;
     RiskM.max_daily_loss := 2 # 100;
     RiskM.max_open_positions := 5;
     RiskM.max_exposure_per_asset := 10 # 100;
     RiskM.open_positions := ∅;
     RiskM.daily_pnl := 0;
     RiskM.daily_trades := [];
     RiskM.last_reset := 0 |}.

Definition scenario_a_order : OrderData :=
  {| o_order_id := Absent; o_symbol := Val "BTC"; o_side := Val "buy";
     o_quantity := Val (PyFloat (5 # 10)); o_price := Val (PyFloat 20000);
     o_order_type := Absent; o_exchange_order_id := Absent;
     o_status := Absent; o_timestamp := Absent |}.

(** The same order as the API hands it to [process_order]:
    [OrderCreate(...).dict()], with [order_id] holding [None] and
    [status] holding its default. *)
Definition api_order : OrderData :=
  {| o_order_id := Null; o_symbol := Val "BTC"; o_side := Val "buy";
     o_quantity := Val (PyFloat (5 # 10)); o_price := Val (PyFloat 20000);
     o_order_type := Absent; o_exchange_order_id := Absent;
     o_status := Val "new"; o_timestamp := Absent |}.


(** Every [record_position_close] of the sequence finds a position under
    its symbol when the sequence is run from [rm]. *)
Fixpoint closes_find_position (ar : Arith) (rm : RiskM.RiskManager)
    (cs : list RiskM.call) : bool :=
  match cs with
  | [] => true
  | c :: cs' =>
      match c with
      | RiskM.Close symbol _ =>
          bool_decide (is_Some (RiskM.open_positions rm !! symbol))
      | RiskM.Open _ => true
      end && closes_find_position ar (RiskM.do_call ar rm c) cs'
  end.

(** [order_data] after the first statement of [process_order]: an id is
    generated when the key is absent, and only then. *)
Definition with_order_id (env : OrderManagerM.Env) (od : OrderData)
    : OrderData :=
  if has_key (o_order_id od)
  then od
  else OrderManagerM.set_order_id
         ("order_" +:+ OrderManagerM.uuid_hex8 env) od.

(** A venue with a balance of 1,000,000 whose [create_order] and
    [get_order_status] answer as given and whose [cancel_order]
    succeeds; the transport accepts every message, and numbers are
    computed without rounding. *)
Definition test_env
    (create : outcome (option OrderManagerM.VenueReply))
    (status : outcome (option OrderManagerM.VenueReply))
    : OrderManagerM.Env :=
  {| OrderManagerM.venue_get_account_info :=
       Ok {| OrderManagerM.a_balance := Val (PyFloat 1000000) |};
     OrderManagerM.venue_create_order := fun _ _ _ _ _ => create;
     OrderManagerM.venue_cancel_order := fun _ _ => Ok true;
     OrderManagerM.venue_get_order_status := fun _ => status;
     OrderManagerM.redis_publish := fun _ _ => Ok tt;
     OrderManagerM.utcnow_iso := fun n => "T" +:+ pretty n;
     OrderManagerM.uuid_hex8 := "0a1b2c3d";
     OrderManagerM.formatter := DecimalFormat.python_format;
     OrderManagerM.arith := exact |}.

(** A started order manager with a new risk manager. *)
Definition started : OrderManagerM.OrderManager :=
  snd (OrderManagerM.start (OrderManagerM.init (RiskM.init 0))).

(** A venue reply that carries only an id, a status and a symbol. *)
Definition status_reply (st symbol : string) : OrderManagerM.VenueReply :=
  {| OrderManagerM.r_id := Some "v1";
     OrderManagerM.r_status := Val st;
     OrderManagerM.r_symbol := Some symbol;
     OrderManagerM.r_filled := Absent;
     OrderManagerM.r_price := Absent;
     OrderManagerM.r_fee := OrderManagerM.FeeAbsent;
     OrderManagerM.r_error := None |}.

(** Was [cancel_order] called on the exchange adapter? *)
Definition cancel_requested (calls : list OrderManagerM.VenueCall) : bool :=
  existsb
    (fun c => match c with
              | OrderManagerM.CallCancelOrder _ _ => true
              | _ => false
              end)
    calls.

End Props.

(** * Further predicates on the order state machine *)

Module OrderProps.
Import OrderStateM OrderOps.

(** The order a call is about. *)
Definition target (o : op) : string :=
  match o with
  | InitializeOrder k _ => k
  | UpdateState k _ _ _ _ => k
  | GetCurrentState k => k
  | GetStateHistory k => k
  | ShouldRetry k => k
  | Reconcile k _ _ _ _ => k
  end.

(** The three dictionaries of the manager have the same keys. *)
Definition same_keys (m : OrderStateManager) : Prop :=
  dom (order_states m) = dom (order_history m)
  /\ dom (order_states m) = dom (retry_attempts m).

(** Does the call raise when made in state [m]? *)
Definition raises (m : OrderStateManager) (o : op) : bool :=
  match o with
  | UpdateState k s dt t0 t1 =>
      match fst (update_state m k s dt t0 t1) with
      | Ok _ => false
      | Raise _ => true
      end
  | Reconcile k st dt t0 t1 =>
      match fst (reconcile_with_exchange m k st dt t0 t1) with
      | Ok _ => false
      | Raise _ => true
      end
  | ShouldRetry k =>
      match fst (should_retry m k) with
      | Ok _ => false
      | Raise _ => true
      end
  | _ => false
  end.

End OrderProps.

(** * Configuration of the risk manager *)

Module RiskConfig.
Import RiskM.

(** The entries of the configuration dictionary that the risk manager
    reads; [None] is an absent key. *)
Record Config : Type := mkConfig {
  c_max_position_size : option Q;
  c_max_daily_loss : option Q;
  c_max_open_positions : option Z;
  c_max_exposure_per_asset : option Q
}.

Definition empty_config : Config :=
  {| c_max_position_size := None; c_max_daily_loss := None;
     c_max_open_positions := None; c_max_exposure_per_asset := None |}.

Definition or_else {A} (x fallback : option A) : option A :=
  match x with
  | Some a => Some a
  | None => fallback
  end.

(** [old.update(new)] *)
Definition dict_update (old new : Config) : Config :=
  {| c_max_position_size :=
       or_else (c_max_position_size new) (c_max_position_size old);
     c_max_daily_loss :=
       or_else (c_max_daily_loss new) (c_max_daily_loss old);
     c_max_open_positions :=
       or_else (c_max_open_positions new) (c_max_open_positions old);
     c_max_exposure_per_asset :=
       or_else (c_max_exposure_per_asset new) (c_max_exposure_per_asset old) |}.

(** The risk manager with its [config] attribute. *)
Record ConfiguredRisk : Type := mkConfigured {
  config : Config;
  manager : RiskManager
}.

(** [__init__(config)] *)
Definition init_with (cfg : option Config) (now : Z) : ConfiguredRisk :=
  let config := default empty_config cfg in
  {| config := config;
     manager :=
       {| max_position_size := default (5 # 100) (c_max_position_size config);
          max_daily_loss := default (2 # 100) (c_max_daily_loss config);
          max_open_positions := default 5%Z (c_max_open_positions config);
          max_exposure_per_asset :=
            default (10 # 100) (c_max_exposure_per_asset config);
          open_positions := ∅;
          daily_pnl := 0;
          daily_trades := [];
          last_reset := now |} |}.

Definition set_limits (new : Config) (rm : RiskManager) : RiskManager :=
  {| max_position_size :=
       default (max_position_size rm) (c_max_position_size new);
     max_daily_loss := default (max_daily_loss rm) (c_max_daily_loss new);
     max_open_positions :=
       default (max_open_positions rm) (c_max_open_positions new);
     max_exposure_per_asset :=
       default (max_exposure_per_asset rm) (c_max_exposure_per_asset new);
     open_positions := open_positions rm;
     daily_pnl := daily_pnl rm;
     daily_trades := daily_trades rm;
     last_reset := last_reset rm |}.

(** [update_config(new_config)]: returns [self.config]. *)
Definition update_config (new_config : Config) : M ConfiguredRisk Config :=
  modify (fun c => {| config := dict_update (config c) new_config;
                      manager := manager c |}) ;;;
  modify (fun c => {| config := config c;
                      manager := set_limits new_config (manager c) |}) ;;;
  gets config.

(** The limits of a risk manager. *)
Definition limits (rm : RiskManager) : Q * Q * Z * Q :=
  (max_position_size rm, max_daily_loss rm, max_open_positions rm,
   max_exposure_per_asset rm).

End RiskConfig.

(** * The checks of [evaluate_order] as conditions *)

Module RiskProps.
Import RiskM.

(** [side.lower() == "buy"] for an order that has a side. *)
Definition is_buy (side : string) : bool := String.eqb (lower side) "buy".

(** The exposure to the symbol after the order, from the position size
    and the current exposure as [evaluate_order] has computed them, both
    relative to the balance. *)
Definition new_exposure (ar : Arith) (side : string) (pct exposure : Q)
    : Q :=
  if is_buy side then fadd ar exposure pct else exposure.

(** The four conditions under which an order is approved, on the
    quantities that [evaluate_order] has computed. *)
Definition within_position_size (rm : RiskManager) (pct : Q) : Prop :=
  (pct <= max_position_size rm)%Q.

Definition within_open_positions (rm : RiskManager) (side : string) : Prop :=
  is_buy side = true ->
  (Z.of_nat (size (open_positions rm)) < max_open_positions rm)%Z.

Definition within_exposure (ar : Arith) (rm : RiskManager) (side : string)
    (pct exposure : Q) : Prop :=
  (new_exposure ar side pct exposure <= max_exposure_per_asset rm)%Q.

Definition within_daily_loss (ar : Arith) (rm : RiskManager) (balance : Q)
    : Prop :=
  (daily_pnl rm < 0)%Q ->
  (Qabs (daily_pnl rm) <= fmul ar balance (max_daily_loss rm))%Q.

(** The daily-loss limit is exceeded. *)
Definition breaker_tripped (ar : Arith) (rm : RiskManager) (balance : Q)
    : Prop :=
  (daily_pnl rm < 0)%Q
  /\ (fmul ar balance (max_daily_loss rm) < Qabs (daily_pnl rm))%Q.

(** The decision of [evaluate_order] for a positive balance and an order
    with a side, from the position size and the current exposure. *)
Definition decision (F : Formatter) (ar : Arith) (rm : RiskManager)
    (symbol : option string) (side : string) (balance pct exposure : Q)
    : RiskDecision :=
  if Qlt_bool (max_position_size rm) pct
  then reject ("Position size " +:+ fmt_pct F (Fin pct)
               +:+ " exceeds maximum "
               +:+ fmt_pct F (Fin (max_position_size rm)))
  else if ((max_open_positions rm <=? Z.of_nat (size (open_positions rm)))%Z
           && is_buy side)%bool
  then reject ("Maximum open positions ("
               +:+ fmt_int F (max_open_positions rm) +:+ ") reached")
  else if Qlt_bool (max_exposure_per_asset rm)
            (new_exposure ar side pct exposure)
  then reject ("Total exposure to " +:+ str_opt symbol +:+ " ("
               +:+ fmt_pct F (Fin (new_exposure ar side pct exposure))
               +:+ ") exceeds maximum "
               +:+ fmt_pct F (Fin (max_exposure_per_asset rm)))
  else if (Qlt_bool (daily_pnl rm) 0
           && Qlt_bool (fmul ar balance (max_daily_loss rm))
                (Qabs (daily_pnl rm)))%bool
  then reject ("Daily loss limit reached ("
               +:+ fmt_2f F (Qabs (daily_pnl rm)) +:+ " > "
               +:+ fmt_2f F (fmul ar balance (max_daily_loss rm)) +:+ ")")
  else {| approved := true; reason := None |}.

(** The value recorded for the position under [symbol], 0 without one. *)
Definition position_value (symbol : option string)
    (positions : gmap (option string) Position) : Q :=
  match positions !! symbol with
  | Some p => default 0%Q (p_value p)
  | None => 0%Q
  end.

(** [record_trade] for each trade of a list, in order. *)
Definition record_trades (ar : Arith) (rm : RiskManager)
    (trades : list Trade) : RiskManager :=
  fold_left (fun rm trade => snd (record_trade ar trade rm)) trades rm.

(** Is the trade a closing trade, and the P&L that [record_trade] reads
    from it. *)
Definition is_closing (trade : Trade) : bool :=
  default false (t_is_closing_trade trade).

Definition trade_pnl (trade : Trade) : Q := default 0%Q (t_pnl trade).

(** The P&L that [record_trade] books for a trade. *)
Definition booked_pnl (trade : Trade) : Q :=
  if is_closing trade then trade_pnl trade else 0%Q.

End RiskProps.


(** * Further predicates on the order manager *)

Module ManagerProps.
Import RiskM OrderManagerM.

(** The order id under which [process_order] handles an order, as
    [order_data.get("order_id")] gives it once the first statement has
    run: the id given, [None] when the key holds [None], the generated
    id when the key was absent. *)
Definition handled_id (env : Env) (od : OrderData) : option string :=
  match o_order_id od with
  | Absent => Some ("order_" +:+ uuid_hex8 env)
  | Null => None
  | Val id => Some id
  end.

(** The order id carried by a message. *)
Definition message_order_id (msg : Payload) : option string :=
  match msg with
  | OrderRejected id _ _ => id
  | OrderCreated od => get (o_order_id od)
  | TradeExecuted td => td_order_id td
  | OrderError id _ _ => id
  | OrderCanceled id _ => Some id
  end.

(** The sequences of topics that one call of [process_order] can
    publish. *)
Definition process_order_topics : list (list string) :=
  [ [];
    ["order.rejected"];
    ["order.error"];
    ["order.created"];
    ["order.created"; "order.error"];
    ["order.created"; "trade.executed"];
    ["order.created"; "trade.executed"; "order.error"] ].

(** What [get_order_status] makes of the adapter's answer. *)
Definition status_seen (env : Env) (order_id : string) : VenueReply :=
  match venue_get_order_status env order_id with
  | Ok (Some reply) => reply
  | Ok None => error_reply "Failed to get order status"
  | Raise e => error_reply (str_exn e)
  end.

(** The manager after [n] more clock readings, the given messages and
    the given venue calls. *)
Definition advanced (w : OrderManager) (rm : RiskManager)
    (messages : list (string * Payload)) (calls : list VenueCall)
    (reads : nat) : OrderManager :=
  {| running := running w; risk_manager := rm;
     published := published w ++ messages;
     venue_calls := venue_calls w ++ calls;
     clock_reads := clock_reads w + reads |}.

(** The [create_order] call for an order. *)
Definition create_call (od : OrderData) : VenueCall :=
  CallCreateOrder (get (o_symbol od)) (get (o_side od)) (get (o_quantity od))
    (get_default (o_order_type od) (Some "market")) (get (o_price od)).

(** What the adapter answers to it. *)
Definition create_reply (env : Env) (od : OrderData)
    : outcome (option VenueReply) :=
  venue_create_order env (get (o_symbol od)) (get (o_side od))
    (get (o_quantity od)) (get_default (o_order_type od) (Some "market"))
    (get (o_price od)).

(** The two venue calls of a submission. *)
Definition submission_calls (od : OrderData) : list VenueCall :=
  [CallGetAccountInfo; create_call od].

(** The quantity and the price that [_handle_order_filled] reports:
    those of the reply, those of the order where the reply has no such
    key. *)
Definition filled_quantity (od : OrderData) (result : VenueReply)
    : option number :=
  get_default (r_filled result) (get (o_quantity od)).

Definition filled_price (od : OrderData) (result : VenueReply)
    : option number :=
  get_default (r_price result) (get (o_price od)).

(** The trade that [_handle_order_filled] reports. *)
Definition trade_of (od : OrderData) (result : VenueReply)
    (fee : option number) (now : string) : TradeData :=
  {| td_order_id := get (o_order_id od);
     td_exchange_order_id := r_id result;
     td_symbol := get (o_symbol od);
     td_side := get (o_side od);
     td_quantity := filled_quantity od result;
     td_price := filled_price od result;
     td_fee := fee;
     td_timestamp := now |}.

(** The position that [_handle_order_filled] records. *)
Definition position_of (ar : Arith) (od : OrderData) (q p : number)
    : Position :=
  {| p_symbol := get (o_symbol od); p_side := get (o_side od);
     p_quantity := Some (num_val q); p_price := Some (num_val p);
     p_value := Some (fmul ar (num_val q) (num_val p)) |}.

(** A buy of 100 at 20,000, and a market buy of 1 without a price. *)
Definition oversized_order : OrderData :=
  {| o_order_id := Val "o7"; o_symbol := Val "BTC"; o_side := Val "buy";
     o_quantity := Val (PyFloat 100); o_price := Val (PyFloat 20000);
     o_order_type := Absent; o_exchange_order_id := Absent;
     o_status := Absent; o_timestamp := Absent |}.

Definition market_order : OrderData :=
  {| o_order_id := Val "o8"; o_symbol := Val "BTC"; o_side := Val "buy";
     o_quantity := Val (PyFloat 1); o_price := Absent;
     o_order_type := Val "market"; o_exchange_order_id := Absent;
     o_status := Absent; o_timestamp := Absent |}.

(** The account of [Props.test_env] and an approval. *)
Definition test_account : AccountInfo :=
  {| a_balance := Val (PyFloat 1000000) |}.

Definition approval : RiskDecision := {| approved := true; reason := None |}.

(** A venue like [Props.test_env] whose account information is as
    given. *)
Definition env_with_account (account : outcome AccountInfo) : Env :=
  {| venue_get_account_info := account;
     venue_create_order := fun _ _ _ _ _ => Ok None;
     venue_cancel_order := fun _ _ => Ok true;
     venue_get_order_status := fun _ => Ok None;
     redis_publish := fun _ _ => Ok tt;
     utcnow_iso := fun n => "T" +:+ pretty n;
     uuid_hex8 := "0a1b2c3d";
     formatter := DecimalFormat.python_format;
     arith := exact |}.

End ManagerProps.


(** * Properties of the order state machine *)

Section OrderStateFacts.
Import OrderStateM OrderOps Props.

Implicit Types (m : OrderStateManager) (k : string) (s : OrderState).

Lemma update_state_initialised m k s s0 h dt t0 t1 :
  order_states m !! k = Some s0 ->
  order_history m !! k = Some h ->
  update_state m k s dt t0 t1 =
    (Ok tt,
     {| order_states := <[k := s]> (order_states m);
        order_history := <[k := h ++ [mkEntry s t1 dt]]> (order_history m);
        retry_attempts := retry_attempts m;
        max_retries := max_retries m |}).
Proof.
  intros Hs Hh. unfold update_state. rewrite Hs. cbn. by rewrite Hh.
Qed.

Lemma update_state_fresh m k s dt t0 t1 :
  order_states m !! k = None ->
  update_state m k s dt t0 t1 =
    (Ok tt,
     {| order_states := <[k := s]> (<[k := PENDING]> (order_states m));
        order_history :=
          <[k := [mkEntry PENDING t0 None; mkEntry s t1 dt]]>
            (<[k := [mkEntry PENDING t0 None]]> (order_history m));
        retry_attempts := <[k := 0%Z]> (retry_attempts m);
        max_retries := max_retries m |}).
Proof.
  intros Hs. unfold update_state. rewrite Hs. cbn.
  by rewrite lookup_insert_eq.
Qed.

Lemma history_tracks_state_init : history_tracks_state init.
Proof. intros k s H. cbn in H. by rewrite lookup_empty in H. Qed.

Lemma history_tracks_state_initialize m k now :
  history_tracks_state m -> history_tracks_state (initialize_order m k now).
Proof.
  intros Hm k' s. cbn. destruct (decide (k = k')) as [->|Hne].
  - rewrite !lookup_insert_eq. intros [= <-]. by eexists.
  - rewrite !lookup_insert_ne by done. apply Hm.
Qed.

Lemma history_tracks_state_update m k s dt t0 t1 :
  history_tracks_state m ->
  history_tracks_state (snd (update_state m k s dt t0 t1)).
Proof.
  intros Hm. destruct (order_states m !! k) as [s0|] eqn:Hs.
  - destruct (Hm _ _ Hs) as (h & Hh & _).
    rewrite (update_state_initialised _ _ _ _ _ _ _ _ Hs Hh). cbn.
    intros k' s'. cbn. destruct (decide (k = k')) as [->|Hne].
    + rewrite !lookup_insert_eq. intros [= <-].
      eexists; split; [done|]. by rewrite last_snoc.
    + rewrite !lookup_insert_ne by done. apply Hm.
  - rewrite (update_state_fresh _ _ _ _ _ _ Hs). cbn.
    intros k' s'. cbn. destruct (decide (k = k')) as [->|Hne].
    + rewrite !lookup_insert_eq. intros [= <-]. by eexists.
    + rewrite !lookup_insert_ne by done. apply Hm.
Qed.

Lemma should_retry_frame m k :
  order_states (snd (should_retry m k)) = order_states m
  /\ order_history (snd (should_retry m k)) = order_history m
  /\ max_retries (snd (should_retry m k)) = max_retries m.
Proof.
  unfold should_retry.
  destruct (order_states m !! k); [|done].
  destruct (_ && _); [|done].
  by destruct (retry_attempts m !! k).
Qed.

Lemma history_tracks_state_should_retry m k :
  history_tracks_state m -> history_tracks_state (snd (should_retry m k)).
Proof.
  intros Hm k' s. destruct (should_retry_frame m k) as (-> & -> & _).
  apply Hm.
Qed.

(** C9. For every order key known to the manager the history is
    non-empty and the state of its last entry is the key's current state:
    this holds of a new manager, and whenever it holds before
    [initialize_order], [update_state], [reconcile_with_exchange] or
    [should_retry] it holds after the call. *)
Theorem history_invariant m :
  history_tracks_state m ->
  history_tracks_state init
  /\ (forall k now, history_tracks_state (initialize_order m k now))
  /\ (forall k s dt t0 t1,
        history_tracks_state (snd (update_state m k s dt t0 t1)))
  /\ (forall k st dt t0 t1,
        history_tracks_state (snd (reconcile_with_exchange m k st dt t0 t1)))
  /\ (forall k, history_tracks_state (snd (should_retry m k))).
Proof.
  intros Hm. split; [apply history_tracks_state_init|].
  split; [intros; by apply history_tracks_state_initialize|].
  split; [intros; by apply history_tracks_state_update|].
  split; [intros; by apply history_tracks_state_update|].
  intros; by apply history_tracks_state_should_retry.
Qed.

Lemma history_invariant_witness :
  history_tracks_state (initialize_order init "o1" 0)
  /\ history_tracks_state
       (snd (update_state (initialize_order init "o1" 0) "o1" SENT None 1 2)).
Proof.
  assert (H : history_tracks_state (initialize_order init "o1" 0)).
  { apply history_tracks_state_initialize, history_tracks_state_init. }
  split; [exact H|].
  exact (proj1 (proj2 (proj2 (history_invariant _ H))) "o1" SENT None 1%Z 2%Z).
Defined.

End OrderStateFacts.

Section InitializeFacts.
Import OrderStateM OrderOps Props.

Implicit Types (m : OrderStateManager) (k : string) (s : OrderState).

(** C5 (as stated) fails: a second [initialize_order] on an order that
    has moved on puts it back to [PENDING], replaces its two-entry
    history by a single entry and zeroes its retry counter. *)
Lemma initialize_order_discards_record :
  let m :=
    snd (should_retry
           (snd (update_state (initialize_order init "o1" 0)
                   "o1" ERROR None 1 2)) "o1") in
  let m' := initialize_order m "o1" 3 in
  (get_current_state m "o1" = Some ERROR
   /\ get_current_state m' "o1" = Some PENDING)
  /\ (length (get_state_history m "o1") = 2%nat
      /\ length (get_state_history m' "o1") = 1%nat)
  /\ (retry_attempts m !! "o1" = Some 1%Z
      /\ retry_attempts m' !! "o1" = Some 0%Z)
  /\ m' <> m.
Proof.
  cbn zeta.
  repeat split; try (vm_compute; reflexivity).
  intros Heq.
  apply (f_equal (fun x => get_current_state x "o1")) in Heq.
  vm_compute in Heq. discriminate.
Qed.

(** C5 (amended). [initialize_order] always writes a new record: the
    order is [PENDING], its history is the single [PENDING] entry stamped
    with the time of the call and its retry counter is 0, whatever was
    recorded before; the records of the other orders are untouched.  Two
    calls in a row therefore leave exactly one [PENDING] entry, the one of
    the second call. *)
Theorem initialize_order_resets m k now :
  get_current_state (initialize_order m k now) k = Some PENDING
  /\ get_state_history (initialize_order m k now) k
     = [mkEntry PENDING now None]
  /\ retry_attempts (initialize_order m k now) !! k = Some 0%Z
  /\ delete k (order_states (initialize_order m k now))
     = delete k (order_states m)
  /\ delete k (order_history (initialize_order m k now))
     = delete k (order_history m)
  /\ delete k (retry_attempts (initialize_order m k now))
     = delete k (retry_attempts m)
  /\ (forall now',
        initialize_order (initialize_order m k now) k now'
        = initialize_order m k now')
  /\ (forall now',
        get_state_history
          (initialize_order (initialize_order m k now) k now') k
        = [mkEntry PENDING now' None]).
Proof.
  unfold get_current_state, get_state_history, initialize_order; cbn.
  rewrite !lookup_insert_eq, !delete_insert_eq.
  repeat split; try done.
  - intros now'. by rewrite !insert_insert_eq.
  - intros now'. by rewrite lookup_insert_eq.
Qed.

End InitializeFacts.

Section RetryFacts.
Import OrderStateM OrderOps Props.

Implicit Types (m : OrderStateManager) (k : string) (s : OrderState).

Lemma retryable_spec s : retryable s = true <-> s = ERROR \/ s = REJECTED.
Proof. destruct s; cbn; intuition congruence. Qed.

(** What a [True] answer of [should_retry] means. *)
Lemma should_retry_true m k :
  fst (should_retry m k) = Ok true ->
  exists s n,
    order_states m !! k = Some s /\ retryable s = true
    /\ retry_attempts m !! k = Some n /\ (n < max_retries m)%Z
    /\ snd (should_retry m k) =
       {| order_states := order_states m;
          order_history := order_history m;
          retry_attempts := <[k := (n + 1)%Z]> (retry_attempts m);
          max_retries := max_retries m |}.
Proof.
  unfold should_retry.
  destruct (order_states m !! k) as [s|] eqn:Hs; [|discriminate].
  destruct (retryable s) eqn:Hr; cbn; [|discriminate].
  destruct (retry_attempts m !! k) as [n|] eqn:Hn; cbn.
  - destruct (n <? max_retries m)%Z eqn:Hlt; cbn; [|discriminate].
    intros _. exists s, n. apply Z.ltb_lt in Hlt. done.
  - destruct (0 <? max_retries m)%Z; cbn; discriminate.
Qed.

(** Any other answer leaves the manager as it was. *)
Lemma should_retry_other m k :
  fst (should_retry m k) <> Ok true -> snd (should_retry m k) = m.
Proof.
  unfold should_retry.
  destruct (order_states m !! k); [|done].
  destruct (_ && _); [|done].
  destruct (retry_attempts m !! k); [|done].
  cbn. congruence.
Qed.

Lemma should_retry_cases m k :
  fst (should_retry m k) = Ok true \/ fst (should_retry m k) <> Ok true.
Proof.
  destruct (fst (should_retry m k)) as [[]|]; [by left|by right|by right].
Qed.

Lemma granted_true k m o :
  granted k m o = true ->
  o = ShouldRetry k /\ fst (should_retry m k) = Ok true.
Proof.
  destruct o; cbn; try discriminate.
  case_decide as Hk; [subst|discriminate].
  destruct (fst (should_retry m k)) as [[]|] eqn:E; try discriminate; done.
Qed.

Lemma update_state_budget m k k' s dt t0 t1 :
  budget (snd (update_state m k' s dt t0 t1)) k = budget m k.
Proof.
  unfold budget, update_state.
  destruct (order_states m !! k') as [s0|] eqn:Hs; cbn.
  - destruct (order_history m !! k'); cbn;
      (destruct (decide (k' = k)) as [->|Hne];
       [rewrite lookup_insert_eq, Hs | rewrite lookup_insert_ne by done];
       done).
  - rewrite lookup_insert_eq. cbn.
    destruct (decide (k' = k)) as [->|Hne].
    + rewrite !lookup_insert_eq, Hs. lia.
    + by rewrite !lookup_insert_ne by done.
Qed.

(** A call that is not a re-initialisation of [k] leaves the budget of
    [k] as it is, except that a granted retry takes one unit, which was
    there to take. *)
Lemma step_budget m k o :
  reinitializes k o = false ->
  if granted k m o
  then (1 <= budget m k)%Z /\ budget (step m o) k = (budget m k - 1)%Z
  else budget (step m o) k = budget m k.
Proof.
  intros Hre. destruct (granted k m o) eqn:Hg.
  - apply granted_true in Hg as [-> Ht].
    destruct (should_retry_true _ _ Ht) as (s & n & Hs & _ & Hn & Hlt & Hm').
    cbn. rewrite Hm'. unfold budget; cbn.
    rewrite Hs, Hn, lookup_insert_eq. lia.
  - destruct o as [k' now|k' s dt t0 t1| | |k'|k' st dt t0 t1]; cbn; try done.
    + cbn in Hre. apply bool_decide_eq_false in Hre.
      unfold budget; cbn. by rewrite !lookup_insert_ne by done.
    + apply update_state_budget.
    + cbn in Hg. case_decide as Hk.
      * subst k'. rewrite should_retry_other; [done|].
        intros E. rewrite E in Hg. discriminate.
      * destruct (should_retry_frame m k') as (Hos & _ & Hmax).
        unfold budget. rewrite Hos, Hmax.
        destruct (should_retry_cases m k') as [Ht|Hnt].
        -- destruct (should_retry_true _ _ Ht) as (? & ? & _ & _ & _ & _ & ->).
           cbn. by rewrite lookup_insert_ne by done.
        -- by rewrite should_retry_other.
    + apply update_state_budget.
Qed.

Lemma update_state_max_retries m k s dt t0 t1 :
  max_retries (snd (update_state m k s dt t0 t1)) = max_retries m.
Proof.
  unfold update_state.
  destruct (order_states m !! k); cbn; by destruct (_ !! k).
Qed.

Lemma step_max_retries m o : max_retries (step m o) = max_retries m.
Proof.
  destruct o as [k' now|k' s dt t0 t1| | |k'|k' st dt t0 t1]; cbn; try done.
  - apply update_state_max_retries.
  - apply should_retry_frame.
  - apply update_state_max_retries.
Qed.

(** Without a re-initialisation of [k], the granted retries of [k] fit
    in its budget. *)
Lemma grants_le_budget k ops : forall m,
  Forall (fun o => reinitializes k o = false) ops ->
  (Z.of_nat (grants k m ops) <= Z.max 0 (budget m k))%Z.
Proof.
  induction ops as [|o ops IH]; intros m Hall; cbn [grants]; [lia|].
  inversion Hall as [|? ? Ho Hops]; subst.
  specialize (IH (step m o) Hops).
  pose proof (step_budget m k o Ho) as Hb.
  destruct (granted k m o); lia.
Qed.

Lemma budget_le_ceiling m k :
  (0 <= max_retries m)%Z -> (0 <= retry_count m k)%Z ->
  (budget m k <= max_retries m)%Z.
Proof.
  unfold budget, retry_count. intros Hmax Hn.
  destruct (order_states m !! k); [|lia].
  destruct (retry_attempts m !! k); cbn in Hn; lia.
Qed.

(** Retry counters never go below zero, and the ceiling stays at 3, in
    every manager obtained from a new one. *)
Lemma step_counters_nonneg m o :
  (forall k, 0 <= retry_count m k)%Z ->
  forall k, (0 <= retry_count (step m o) k)%Z.
Proof.
  intros Hm k. unfold retry_count in *.
  assert (Hupd : forall k' s dt t0 t1,
    (0 <= default 0 (retry_attempts (snd (update_state m k' s dt t0 t1)) !! k))%Z).
  { intros k' s dt t0 t1. unfold update_state.
    destruct (order_states m !! k'); cbn.
    - destruct (order_history m !! k'); cbn; apply Hm.
    - rewrite lookup_insert_eq. cbn.
      destruct (decide (k' = k)) as [->|Hne].
      + by rewrite lookup_insert_eq.
      + rewrite lookup_insert_ne by done. apply Hm. }
  destruct o as [k' now|k' s dt t0 t1| | |k'|k' st dt t0 t1]; cbn;
    try apply Hm; try apply Hupd.
  - destruct (decide (k' = k)) as [->|Hne].
    + by rewrite lookup_insert_eq.
    + rewrite lookup_insert_ne by done. apply Hm.
  - destruct (should_retry_cases m k') as [Ht|Hnt].
    + destruct (should_retry_true _ _ Ht) as (? & n & _ & _ & Hn & _ & ->).
      cbn. destruct (decide (k' = k)) as [->|Hne].
      * rewrite lookup_insert_eq. cbn. specialize (Hm k).
        rewrite Hn in Hm. cbn in Hm. lia.
      * rewrite lookup_insert_ne by done. apply Hm.
    + rewrite should_retry_other by done. apply Hm.
Qed.

Lemma run_snoc m ops o : run m (ops ++ [o]) = step (run m ops) o.
Proof. unfold run. by rewrite fold_left_app. Qed.

Lemma reachable_well_formed ops :
  max_retries (run init ops) = 3%Z
  /\ forall k, (0 <= retry_count (run init ops) k)%Z.
Proof.
  induction ops as [|o ops IH] using rev_ind.
  - split; [done|]. intros k. unfold retry_count. cbn.
    by rewrite lookup_empty.
  - rewrite run_snoc. destruct IH as [Hmax Hn]. split.
    + by rewrite step_max_retries.
    + by apply step_counters_nonneg.
Qed.

Lemma should_retry_grant m k s n :
  order_states m !! k = Some s -> retryable s = true ->
  retry_attempts m !! k = Some n -> (n < max_retries m)%Z ->
  should_retry m k =
    (Ok true,
     {| order_states := order_states m;
        order_history := order_history m;
        retry_attempts := <[k := (n + 1)%Z]> (retry_attempts m);
        max_retries := max_retries m |}).
Proof.
  intros Hs Hr Hn Hlt. unfold should_retry. rewrite Hs, Hr, Hn. cbn.
  apply Z.ltb_lt in Hlt. by rewrite Hlt.
Qed.

Lemma should_retry_exhausted m k s n :
  order_states m !! k = Some s ->
  retry_attempts m !! k = Some n -> (max_retries m <= n)%Z ->
  should_retry m k = (Ok false, m).
Proof.
  intros Hs Hn Hge. unfold should_retry. rewrite Hs, Hn. cbn.
  apply Z.ltb_ge in Hge. rewrite Hge. by rewrite andb_false_r.
Qed.

Lemma update_state_current m k s dt t0 t1 :
  order_states (snd (update_state m k s dt t0 t1)) !! k = Some s.
Proof.
  destruct (order_states m !! k) as [s0|] eqn:Hs.
  - unfold update_state. rewrite Hs. cbn.
    destruct (order_history m !! k); cbn; apply lookup_insert_eq.
  - rewrite update_state_fresh by done. cbn. apply lookup_insert_eq.
Qed.

Lemma update_state_counters m k s0 s dt t0 t1 :
  order_states m !! k = Some s0 ->
  retry_attempts (snd (update_state m k s dt t0 t1)) = retry_attempts m.
Proof.
  intros Hs. unfold update_state. rewrite Hs. cbn.
  by destruct (order_history m !! k).
Qed.

(** Four checks in a row on an order in [ERROR] with an unused counter
    and the ceiling at 3. *)
Lemma four_checks m k :
  order_states m !! k = Some ERROR ->
  retry_attempts m !! k = Some 0%Z ->
  max_retries m = 3%Z ->
  answers m [ShouldRetry k; ShouldRetry k; ShouldRetry k; ShouldRetry k]
  = [Ok true; Ok true; Ok true; Ok false].
Proof.
  intros Hs Hn Hmax. cbn [answers step].
  rewrite (should_retry_grant m k ERROR 0) by (done || lia). cbn [fst snd].
  set (m1 := {| order_states := order_states m |}).
  rewrite (should_retry_grant m1 k ERROR 1)
    by (done || (cbn; rewrite ?lookup_insert_eq; done || lia)).
  cbn [fst snd].
  set (m2 := {| order_states := order_states m1 |}).
  rewrite (should_retry_grant m2 k ERROR 2)
    by (done || (cbn; rewrite ?lookup_insert_eq; done || lia)).
  cbn [fst snd].
  set (m3 := {| order_states := order_states m2 |}).
  rewrite (should_retry_exhausted m3 k ERROR 3)
    by (done || (cbn; rewrite ?lookup_insert_eq; done || lia)).
  reflexivity.
Qed.

(** Scenario E for any key and any clock readings. *)
Lemma three_errors_then_four_checks k t0 t1 t2 t3 t4 t5 :
  answers init
    [ UpdateState k ERROR None t0 t1; UpdateState k ERROR None t2 t3;
      UpdateState k ERROR None t4 t5;
      ShouldRetry k; ShouldRetry k; ShouldRetry k; ShouldRetry k ]
  = [Ok true; Ok true; Ok true; Ok false].
Proof.
  cbn [answers step].
  set (m1 := snd (update_state init k ERROR None t0 t1)).
  set (m2 := snd (update_state m1 k ERROR None t2 t3)).
  set (m3 := snd (update_state m2 k ERROR None t4 t5)).
  assert (H1 : retry_attempts m1 !! k = Some 0%Z).
  { subst m1. rewrite update_state_fresh by apply lookup_empty.
    cbn. apply lookup_insert_eq. }
  assert (S1 : order_states m1 !! k = Some ERROR)
    by apply update_state_current.
  assert (S2 : order_states m2 !! k = Some ERROR)
    by apply update_state_current.
  apply four_checks.
  - apply update_state_current.
  - subst m3. rewrite (update_state_counters _ _ _ _ _ _ _ S2).
    subst m2. by rewrite (update_state_counters _ _ _ _ _ _ _ S1).
  - subst m3 m2 m1. by rewrite !update_state_max_retries.
Qed.

End RetryFacts.

Section RetryClaims.
Import OrderStateM OrderOps Props.

Implicit Types (m : OrderStateManager) (k : string) (s : OrderState).

(** C1 (as stated) fails: [initialize_order] zeroes the retry counter,
    so an order that is initialised again is granted retries again; here
    [should_retry] answers [True] four times for one key with the ceiling
    at 3. *)
Lemma reinitialised_order_retries_again :
  let ops :=
    [ InitializeOrder "o1" 0; UpdateState "o1" ERROR None 1 2;
      ShouldRetry "o1"; ShouldRetry "o1"; ShouldRetry "o1";
      InitializeOrder "o1" 3; UpdateState "o1" ERROR None 4 5;
      ShouldRetry "o1" ] in
  max_retries init = 3%Z
  /\ answers init ops = [Ok true; Ok true; Ok true; Ok true]
  /\ grants "o1" init ops = 4%nat
  /\ ~ (Z.of_nat (grants "o1" init ops) <= max_retries init)%Z.
Proof.
  cbn zeta. repeat split; try (vm_compute; reflexivity).
  vm_compute. intros H. apply H. reflexivity.
Qed.

(** From a new manager, whatever happened before, the retries granted to
    a key by calls that do not initialise it again number at most 3. *)
Lemma should_retry_budget_reachable (pre ops : list op) k :
  Forall (fun o => reinitializes k o = false) ops ->
  (grants k (run init pre) ops <= 3)%nat.
Proof.
  intros Hops. destruct (reachable_well_formed pre) as [Hmax Hn].
  pose proof (grants_le_budget k ops (run init pre) Hops).
  pose proof (budget_le_ceiling (run init pre) k) as Hb.
  rewrite Hmax in Hb. specialize (Hb ltac:(lia) (Hn k)). lia.
Qed.

(** C1 (amended). Over any sequence of calls that does not initialise
    the key again, [should_retry] answers [True] for that key at most
    [max_retries] times; it answers [True] only when the key's current
    state is [ERROR] or [REJECTED] and its retry counter is below the
    ceiling, and each [True] answer adds one to the counter; with the
    ceiling at 3, three [ERROR] transitions followed by four checks give
    [True], [True], [True], [False].  The bound is stated for any manager
    whose ceiling and counter for the key are not negative, and for every
    manager obtained from a new one, whose ceiling is 3. *)
Theorem should_retry_budget m k ops :
  (0 <= max_retries m)%Z ->
  (0 <= retry_count m k)%Z ->
  Forall (fun o => reinitializes k o = false) ops ->
  (Z.of_nat (grants k m ops) <= max_retries m)%Z
  /\ (forall m0 k0,
        fst (should_retry m0 k0) = Ok true ->
        (get_current_state m0 k0 = Some ERROR
         \/ get_current_state m0 k0 = Some REJECTED)
        /\ (retry_count m0 k0 < max_retries m0)%Z
        /\ retry_count (snd (should_retry m0 k0)) k0
           = (retry_count m0 k0 + 1)%Z)
  /\ (forall k0 t0 t1 t2 t3 t4 t5,
        answers init
          [ UpdateState k0 ERROR None t0 t1; UpdateState k0 ERROR None t2 t3;
            UpdateState k0 ERROR None t4 t5;
            ShouldRetry k0; ShouldRetry k0; ShouldRetry k0; ShouldRetry k0 ]
        = [Ok true; Ok true; Ok true; Ok false])
  /\ (forall pre, (grants k (run init pre) ops <= 3)%nat).
Proof.
  intros Hmax Hn Hops. split; [|split; [|split]];
    [| | |intros pre; by apply should_retry_budget_reachable].
  - pose proof (grants_le_budget k ops m Hops).
    pose proof (budget_le_ceiling m k Hmax Hn). lia.
  - intros m0 k0 Ht.
    destruct (should_retry_true _ _ Ht) as (s & n & Hs & Hr & Hc & Hlt & ->).
    unfold get_current_state, retry_count. cbn.
    rewrite Hs, Hc, lookup_insert_eq. cbn.
    apply retryable_spec in Hr as [-> | ->]; auto.
  - apply three_errors_then_four_checks.
Qed.

Lemma should_retry_budget_witness :
  (Z.of_nat
     (grants "o1" init
        [ UpdateState "o1" ERROR None 0 1; ShouldRetry "o1";
          ShouldRetry "o1"; UpdateState "o1" REJECTED None 2 3;
          ShouldRetry "o1"; ShouldRetry "o1"; ShouldRetry "o1" ])
   <= max_retries init)%Z.
Proof.
  refine (proj1 (should_retry_budget init "o1" _ _ _ _)).
  - vm_compute. discriminate.
  - vm_compute. discriminate.
  - repeat constructor.
Defined.

End RetryClaims.


Section ReconcileFacts.
Import OrderStateM OrderOps Props.

Implicit Types (m : OrderStateManager) (k st : string) (s : OrderState).

Lemma status_mapping_lookup (x : string) :
  status_mapping !! x =
    if decide (x = "new") then Some SENT
    else if decide (x = "open") then Some SENT
    else if decide (x = "closed") then Some FILLED
    else if decide (x = "canceled") then Some CANCELED
    else if decide (x = "expired") then Some CANCELED
    else if decide (x = "rejected") then Some REJECTED
    else if decide (x = "failed") then Some ERROR
    else None.
Proof.
  unfold status_mapping. cbn [list_to_map foldr fst snd uncurry].
  repeat (case_decide;
          [subst x; apply lookup_insert_eq | rewrite lookup_insert_ne by done]).
  apply lookup_empty.
Qed.

Lemma unrecognized_is_error (x : string) :
  x ∉ listed_statuses -> default ERROR (status_mapping !! x) = ERROR.
Proof.
  intros Hx. rewrite status_mapping_lookup. unfold listed_statuses in Hx.
  repeat (apply not_elem_of_cons in Hx as [? Hx]).
  repeat (case_decide; [done|]).
  done.
Qed.

Lemma not_closed_as_written (st x : string) :
  lower st = x -> x <> "closed" -> String.eqb st "closed" = false.
Proof.
  intros Hl Hx. apply String.eqb_neq. intros ->. apply Hx.
  rewrite <- Hl. reflexivity.
Qed.

(** The table is consulted with the lower-cased status: a status other
    than [closed] is mapped up to letter case. *)
Lemma reconcile_state_table (st x : string) dt s :
  lower st = x -> x <> "closed" -> status_mapping !! x = Some s ->
  reconcile_state st dt = s.
Proof.
  intros Hl Hx Hs. unfold reconcile_state.
  rewrite (not_closed_as_written st x Hl Hx), Hl, Hs. reflexivity.
Qed.

(** For the listed statuses as written, the code maps as the
    specification says. *)
Lemma reconcile_state_as_claimed st dt :
  st ∈ listed_statuses -> reconcile_state st dt = claimed_state st dt.
Proof.
  unfold listed_statuses. intros H.
  repeat (apply elem_of_cons in H as [->|H]);
    [| |unfold reconcile_state, claimed_state; cbn;
        by destruct (py_eqb _ _)| | | |by apply elem_of_nil in H];
    reflexivity.
Qed.

(** A status that is none of the listed ones in any letter case is
    mapped to [ERROR]. *)
Lemma reconcile_state_unrecognized st dt :
  lower st ∉ listed_statuses -> reconcile_state st dt = ERROR.
Proof.
  intros Hun. unfold reconcile_state.
  assert (Hc : String.eqb st "closed" = false).
  { apply String.eqb_neq. intros ->. apply Hun.
    unfold listed_statuses. cbn. do 2 right. left. }
  rewrite Hc. cbn. by apply unrecognized_is_error.
Qed.

(** C2. [reconcile_with_exchange] tests for a partial fill with
    [exchange_status == 'closed'], on the status as received, but
    consults its table with [exchange_status.lower()].  A venue status
    that is [closed] in another letter case ([CLOSED], [Closed]) is
    therefore recognized by the table and recorded as [FILLED] although
    [filled] differs from [amount]; the same detail under [closed] in
    lower case is recorded as [PARTIALLY_FILLED]. *)
Theorem reconcile_closed_letter_case m k st dt t0 t1 :
  lower st = "closed" ->
  st <> "closed" ->
  py_eqb (dict_get dt "filled") (dict_get dt "amount") = false ->
  get_current_state (snd (reconcile_with_exchange m k st dt t0 t1)) k
  = Some FILLED
  /\ get_current_state
       (snd (reconcile_with_exchange m k "closed" dt t0 t1)) k
     = Some PARTIALLY_FILLED.
Proof.
  intros Hl Hne Hpartial.
  unfold reconcile_with_exchange, get_current_state.
  rewrite !update_state_current. split; f_equal.
  - unfold reconcile_state.
    assert (Hc : String.eqb st "closed" = false) by by apply String.eqb_neq.
    rewrite Hc, Hl. reflexivity.
  - unfold reconcile_state. rewrite Hpartial. reflexivity.
Qed.

Lemma reconcile_closed_letter_case_witness :
  get_current_state
    (snd (reconcile_with_exchange init "o1" "CLOSED" partial_fill_detail 0 1))
    "o1"
  = Some FILLED
  /\ get_current_state
       (snd (reconcile_with_exchange init "o1" "closed" partial_fill_detail
               0 1))
       "o1"
     = Some PARTIALLY_FILLED.
Proof.
  apply reconcile_closed_letter_case;
    [reflexivity|discriminate|vm_compute; reflexivity].
Defined.

End ReconcileFacts.

(** * Properties of the risk gate *)

Import Props.

Section MonadFacts.

Context {S : Type}.

Lemma read_only_ret {A} (a : A) : read_only (ret (S := S) a).
Proof. by intros s. Qed.

Lemma read_only_raise {A} e : read_only (raise (S := S) (A := A) e).
Proof. by intros s. Qed.

Lemma read_only_gets {A} (f : S -> A) : read_only (gets f).
Proof. by intros s. Qed.

Lemma read_only_lift {A} (o : outcome A) : read_only (lift_outcome (S := S) o).
Proof. by intros s. Qed.

Lemma read_only_bind {A B} (c : M S A) (f : A -> M S B) :
  read_only c -> (forall a, read_only (f a)) -> read_only (bind c f).
Proof.
  intros Hc Hf s. unfold bind. specialize (Hc s).
  destruct (c s) as [[a|e] s']; cbn in *; subst s'; [apply Hf|done].
Qed.

End MonadFacts.

Ltac read_only_step :=
  first
    [ apply read_only_ret
    | apply read_only_raise
    | apply read_only_gets
    | apply read_only_lift
    | apply read_only_bind; [|intros ?]
    | match goal with
      | |- read_only (if ?b then _ else _) => destruct b
      end ].

Section RiskFacts.
Import RiskM Props.

Implicit Types (rm : RiskManager) (F : Formatter) (order : OrderData).

Lemma Qlt_bool_true (a b : Q) : Qlt_bool a b = true <-> (a < b)%Q.
Proof.
  unfold Qlt_bool. rewrite negb_true_iff.
  destruct (Qle_bool b a) eqn:E.
  - apply Qle_bool_iff in E. split; [discriminate|].
    intros H. exfalso. by apply (Qle_not_lt b a).
  - split; [intros _|done].
    apply Qnot_le_lt. intros H. apply Qle_bool_iff in H. congruence.
Qed.

Lemma Qlt_bool_false (a b : Q) : Qlt_bool a b = false <-> (b <= a)%Q.
Proof.
  unfold Qlt_bool. rewrite negb_false_iff. apply Qle_bool_iff.
Qed.

Lemma append_assoc (a b c : string) : (a +:+ b) +:+ c = a +:+ b +:+ c.
Proof.
  induction a as [|x a IH]; [done|].
  change (String x ((a +:+ b) +:+ c) = String x (a +:+ b +:+ c)).
  by f_equal.
Qed.

Lemma mentions_after (s t needle : string) :
  mentions t needle -> mentions (s +:+ t) needle.
Proof.
  intros (pre & post & ->). exists (s +:+ pre), post.
  by rewrite append_assoc.
Qed.

Lemma evaluate_order_read_only F ar order balance :
  read_only (evaluate_order F ar order balance).
Proof. unfold evaluate_order. repeat read_only_step. Qed.

(** C10. [evaluate_order] does not change the risk manager: the open
    positions, the daily P&L, the daily trades and the configured limits
    after the call are those before it, whether the order is approved,
    rejected, or the evaluation raises. *)
Theorem evaluate_order_frame F ar order balance rm :
  snd (evaluate_order F ar order balance rm) = rm
  /\ open_positions (snd (evaluate_order F ar order balance rm))
     = open_positions rm
  /\ daily_pnl (snd (evaluate_order F ar order balance rm)) = daily_pnl rm
  /\ daily_trades (snd (evaluate_order F ar order balance rm))
     = daily_trades rm
  /\ max_position_size (snd (evaluate_order F ar order balance rm))
     = max_position_size rm
  /\ max_daily_loss (snd (evaluate_order F ar order balance rm))
     = max_daily_loss rm
  /\ max_open_positions (snd (evaluate_order F ar order balance rm))
     = max_open_positions rm
  /\ max_exposure_per_asset (snd (evaluate_order F ar order balance rm))
     = max_exposure_per_asset rm.
Proof.
  pose proof (evaluate_order_read_only F ar order balance rm) as H.
  by rewrite H.
Qed.


(** The product is computed for every order whose [quantity] and
    [price] are numbers or absent. *)
Lemma order_value_of_defined ar order :
  o_quantity order <> Null ->
  o_price order <> Null ->
  exists v, order_value_of ar order = Ok v.
Proof.
  intros Hq Hp. unfold order_value_of.
  destruct (o_quantity order), (o_price order); try done; by eexists.
Qed.

(** The first check of [evaluate_order], for a positive balance. *)
Lemma evaluate_order_size_check F ar order balance v pct rm :
  (0 < balance)%Q ->
  order_value_of ar order = Ok v ->
  fdiv ar v balance = Ok pct ->
  (max_position_size rm < pct)%Q ->
  evaluate_order F ar order (Some balance) rm =
    (Ok (reject ("Position size " +:+ fmt_pct F (Fin pct)
                 +:+ " exceeds maximum "
                 +:+ fmt_pct F (Fin (max_position_size rm)))), rm).
Proof.
  intros Hb Hv Hdiv Hpct.
  unfold evaluate_order, position_size_pct_of.
  rewrite Hv. cbn [compared_with_zero].
  assert (Hpos : Qlt_bool 0 balance = true) by by apply Qlt_bool_true.
  unfold bind at 1, lift_outcome at 1.
  unfold bind at 1, lift_outcome at 1.
  rewrite Hpos, Hdiv. unfold bind, lift_outcome, gets, ret. cbn.
  apply Qlt_bool_true in Hpct. by rewrite Hpct.
Qed.

(** Without rounding, the computed ratio is [quantity * price /
    account_balance]. *)
Lemma exact_ratio (x y balance : Q) :
  (0 < balance)%Q ->
  fdiv exact (fmul exact x y) balance = Ok (x * y / balance)%Q.
Proof.
  intros Hb. cbn. unfold py_div.
  destruct (Qeq_bool balance 0) eqn:E; [|done].
  apply Qeq_bool_iff in E. rewrite E in Hb. by apply Qlt_irrefl in Hb.
Qed.

(** C3. With a positive balance, an order whose value relative to the
    balance, [quantity * price / account_balance] as the program
    computes it, exceeds [max_position_size] is not approved and the
    reason mentions "exceeds maximum".  The product and the quotient
    are those of the arithmetic in use, whatever it rounds; without
    rounding the ratio compared with the limit is the one of the
    rationals. *)
Theorem oversized_order_rejected F ar order balance v pct rm :
  (0 < balance)%Q ->
  order_value_of ar order = Ok v ->
  fdiv ar v balance = Ok pct ->
  (max_position_size rm < pct)%Q ->
  (exists why,
     fst (evaluate_order F ar order (Some balance) rm)
     = Ok {| approved := false; reason := Some why |}
     /\ mentions why "exceeds maximum")
  /\ (forall q p,
        get_default (o_quantity order) (Some (PyInt 0)) = Some q ->
        get_default (o_price order) (Some (PyInt 0)) = Some p ->
        order_value_of ar order = Ok (fmul ar (num_val q) (num_val p))
        /\ fdiv exact (fmul exact (num_val q) (num_val p)) balance
           = Ok (num_val q * num_val p / balance)%Q).
Proof.
  intros Hb Hv Hdiv Hpct. split.
  - rewrite (evaluate_order_size_check F ar order balance v pct) by done.
    eexists. split; [reflexivity|].
    do 2 apply mentions_after.
    by exists " ", (" " +:+ fmt_pct F (Fin (max_position_size rm))).
  - intros q p Hq Hp. split; [|by apply exact_ratio].
    unfold order_value_of. by rewrite Hq, Hp.
Qed.

Lemma oversized_order_rejected_witness :
  exists why,
    fst (evaluate_order DecimalFormat.python_format exact scenario_a_order
           (Some 10000%Q) scenario_a_risk)
    = Ok {| approved := false; reason := Some why |}
    /\ mentions why "exceeds maximum".
Proof.
  refine (proj1 (oversized_order_rejected DecimalFormat.python_format exact
                   scenario_a_order 10000
                   ((5 # 10) * 20000)%Q ((5 # 10) * 20000 / 10000)%Q
                   scenario_a_risk _ _ _ _));
    vm_compute; reflexivity.
Defined.

(** Scenario A, evaluated without rounding. *)
Lemma scenario_a_evaluated :
  fst (evaluate_order DecimalFormat.python_format exact scenario_a_order
         (Some 10000%Q) scenario_a_risk)
  = Ok {| approved := false;
          reason := Some "Position size 100.00% exceeds maximum 10.00%" |}.
Proof. vm_compute. reflexivity. Qed.



End RiskFacts.

Section PositionFacts.
Import RiskM Props.

Implicit Types (ar : Arith) (rm : RiskManager) (cs : list call).

Lemma record_position_open_pnl position rm :
  daily_pnl (snd (record_position_open position rm)) = daily_pnl rm.
Proof. reflexivity. Qed.

Lemma record_position_close_known ar symbol pnl rm :
  is_Some (open_positions rm !! symbol) ->
  record_position_close ar symbol pnl rm =
    (Ok tt,
     set_daily_pnl (fun d => fadd ar d pnl)
       (set_positions (fun ps => delete symbol ps) rm)).
Proof.
  intros [p Hp]. unfold record_position_close, bind, gets. by rewrite Hp.
Qed.

Lemma record_position_close_unknown ar symbol pnl rm :
  open_positions rm !! symbol = None ->
  record_position_close ar symbol pnl rm = (Ok tt, rm).
Proof.
  intros Hp. unfold record_position_close, bind, gets. by rewrite Hp.
Qed.

(** A close on a symbol that has no open position is a no-op: it adds
    nothing to the daily P&L. *)
Lemma close_without_position_not_counted :
  daily_pnl (do_calls exact (init 0) [Close (Some "BTC") 5]) = 0%Q.
Proof. reflexivity. Qed.

Lemma Qsum_cons (x : Q) (l : list Q) : Qsum (x :: l) = (x + Qsum l)%Q.
Proof. reflexivity. Qed.

Lemma do_calls_cons ar rm c cs :
  do_calls ar rm (c :: cs) = do_calls ar (do_call ar rm c) cs.
Proof. reflexivity. Qed.

(** The total accumulated by an addition that does not round is the
    sum. *)
Lemma accumulated_exact ar (l : list Q) : forall start,
  (forall x y, Qeq (fadd ar x y) (x + y)) ->
  Qeq (accumulated ar start l) (start + Qsum l).
Proof.
  induction l as [|x l IH]; intros start Hadd.
  - change (Qeq start (start + 0)). ring.
  - change (Qeq (accumulated ar (fadd ar start x) l) (start + (x + Qsum l))).
    rewrite IH by done. rewrite Hadd. ring.
Qed.

Lemma daily_pnl_after_calls ar cs : forall rm,
  daily_pnl (do_calls ar rm cs)
  = accumulated ar (daily_pnl rm) (effective_pnls ar rm cs).
Proof.
  induction cs as [|c cs IH]; intros rm; [done|].
  rewrite do_calls_cons, IH. cbn [effective_pnls].
  destruct c as [position|symbol pnl].
  - by rewrite app_nil_l.
  - cbn [do_call].
    destruct (open_positions rm !! symbol) as [p|] eqn:Hp.
    + by rewrite record_position_close_known by (by rewrite Hp).
    + by rewrite record_position_close_unknown.
Qed.

(** After any sequence of [record_position_open] and
    [record_position_close] calls the daily P&L is the one before,
    plus the realized-P&L arguments of those closes that found an open
    position under their symbol. *)
Lemma daily_pnl_sums_effective_closes ar rm cs :
  daily_pnl (do_calls ar rm cs)
  = accumulated ar (daily_pnl rm) (effective_pnls ar rm cs)
  /\ ((forall x y, Qeq (fadd ar x y) (x + y)) ->
      Qeq (daily_pnl (do_calls ar rm cs))
          (daily_pnl rm + Qsum (effective_pnls ar rm cs))).
Proof.
  split; [apply daily_pnl_after_calls|].
  intros Hadd. rewrite daily_pnl_after_calls. by apply accumulated_exact.
Qed.

(** When every close finds its position, these are all the closes. *)
Lemma effective_pnls_all ar rm cs :
  closes_find_position ar rm cs = true ->
  effective_pnls ar rm cs = close_pnls cs.
Proof.
  revert rm. induction cs as [|c cs IH]; intros rm; [done|].
  cbn [closes_find_position effective_pnls close_pnls].
  intros [Hc Hcs]%andb_true_iff. rewrite (IH _ Hcs).
  destruct c as [position|symbol pnl]; [done|].
  apply bool_decide_eq_true in Hc as [p Hp]. by rewrite Hp.
Qed.

(** C6. For a sequence of [record_position_open] and
    [record_position_close] calls, run from a new risk manager, in
    which every close finds the position it closes (each symbol is
    opened before it is closed, once per opening), the final daily P&L
    is the sum of the realized-P&L arguments of the closes: the total
    that the program's addition accumulates over them in call order
    from 0, which is their sum when the addition does not round. *)
Theorem daily_pnl_sums_closes ar cs now :
  closes_find_position ar (init now) cs = true ->
  daily_pnl (do_calls ar (init now) cs) = accumulated ar 0 (close_pnls cs)
  /\ ((forall x y, Qeq (fadd ar x y) (x + y)) ->
      Qeq (daily_pnl (do_calls ar (init now) cs)) (Qsum (close_pnls cs))).
Proof.
  intros H.
  assert (E : daily_pnl (do_calls ar (init now) cs)
              = accumulated ar 0 (close_pnls cs)).
  { rewrite daily_pnl_after_calls. by rewrite (effective_pnls_all _ _ _ H). }
  split; [done|].
  intros Hadd. rewrite E, accumulated_exact by done. ring.
Qed.

Lemma daily_pnl_sums_closes_witness :
  Qeq (daily_pnl
         (do_calls exact (init 0)
            [ Open (mkPosition (Some "BTC") (Some "buy") (Some 1%Q)
                      (Some 100%Q) (Some 100%Q));
              Open (mkPosition (Some "ETH") (Some "buy") (Some 2%Q)
                      (Some 10%Q) (Some 20%Q));
              Close (Some "ETH") (-3);
              Close (Some "BTC") 5 ]))
      (Qsum [(-3)%Q; 5%Q]).
Proof.
  refine (proj2 (daily_pnl_sums_closes exact _ 0 _) _);
    [reflexivity|intros x y; reflexivity].
Defined.

End PositionFacts.

(** * Properties of the order manager *)

Section OrderManagerFacts.
Import RiskM OrderManagerM Props ManagerProps.

Implicit Types (env : Env) (w : OrderManager) (od : OrderData).

Lemma evaluate_order_result F ar od balance rm d :
  fst (evaluate_order F ar od balance rm) = Ok d ->
  evaluate_order F ar od balance rm = (Ok d, rm).
Proof.
  intros H.
  pose proof (evaluate_order_read_only F ar od balance rm) as Hs.
  destruct (evaluate_order F ar od balance rm) as [r rm'].
  cbn in *. by subst.
Qed.

(** The order id that the messages of [process_order] carry. *)
Lemma with_order_id_fields env od :
  get (o_order_id (with_order_id env od)) = handled_id env od
  /\ get_default (o_order_id (with_order_id env od)) (Some "unknown")
     = handled_id env od
  /\ order_id_of (with_order_id env od) = Ok (handled_id env od)
  /\ o_symbol (with_order_id env od) = o_symbol od
  /\ o_side (with_order_id env od) = o_side od
  /\ o_quantity (with_order_id env od) = o_quantity od
  /\ o_price (with_order_id env od) = o_price od
  /\ o_order_type (with_order_id env od) = o_order_type od.
Proof.
  unfold with_order_id, handled_id, order_id_of.
  destruct (o_order_id od) eqn:E; cbn; by rewrite ?E.
Qed.

(** The first statements of [process_order] on a running manager: the
    order id is generated if the key is absent, the account is
    queried, and the order is evaluated against the balance. *)
Lemma process_order_starts env w od :
  running w = true ->
  forall k : AccountInfo -> M Frame (option VenueReply),
  try_except
    (let* od0 := gets order_data in
     (if has_key (o_order_id od0)
      then ret tt
      else set_order_data (set_order_id ("order_" +:+ uuid_hex8 env))) ;;;
     let* account_info :=
       on_self (venue CallGetAccountInfo (venue_get_account_info env)) in
     k account_info)
    (process_order_handler env) (mkFrame w od)
  = match venue_get_account_info env with
    | Ok acct =>
        try_except (k acct) (process_order_handler env)
          (mkFrame (advanced w (risk_manager w) [] [CallGetAccountInfo] 0)
             (with_order_id env od))
    | Raise e =>
        process_order_handler env e
          (mkFrame (advanced w (risk_manager w) [] [CallGetAccountInfo] 0)
             (with_order_id env od))
    end.
Proof.
  intros Hrun k. unfold try_except, advanced.
  rewrite app_nil_r, Nat.add_0_r.
  unfold bind at 1, gets at 1. cbn [order_data].
  unfold with_order_id.
  destruct (has_key (o_order_id od));
    unfold bind at 1; cbn [ret set_order_data modify self order_data];
    unfold bind at 1, on_self at 1, venue at 1; cbn [self order_data];
    by destruct (venue_get_account_info env).
Qed.

(** [process_order] up to the decision of the risk manager. *)
Lemma process_order_evaluates env w od acct :
  running w = true ->
  venue_get_account_info env = Ok acct ->
  let od' := with_order_id env od in
  let f1 :=
    mkFrame (advanced w (risk_manager w) [] [CallGetAccountInfo] 0) od' in
  process_order env (mkFrame w od)
  = match fst (evaluate_order (formatter env) (arith env) od'
                 (balance_of acct) (risk_manager w)) with
    | Raise e => process_order_handler env e f1
    | Ok d =>
        if approved d
        then
          match create_reply env od' with
          | Raise e =>
              process_order_handler env e
                (mkFrame
                   (advanced w (risk_manager w) [] (submission_calls od') 0)
                   od')
          | Ok None =>
              (Ok None,
               mkFrame
                 (advanced w (risk_manager w) [] (submission_calls od') 0)
                 od')
          | Ok (Some result) =>
              try_except
                (let* now := on_self (utcnow env) in
                 set_order_data (update_with_reply result now) ;;;
                 let* od2 := gets order_data in
                 on_self (publish env "order.created" (OrderCreated od2)) ;;;
                 (if is_filled_status (get (r_status result))
                  then _handle_order_filled env result
                  else ret tt) ;;;
                 ret (Some result))
                (process_order_handler env)
                (mkFrame
                   (advanced w (risk_manager w) [] (submission_calls od') 0)
                   od')
          end
        else
          try_except
            (let* now := on_self (utcnow env) in
             on_self (publish env "order.rejected"
                        (OrderRejected (handled_id env od) (reason d) now)) ;;;
             ret None)
            (process_order_handler env) f1
    end.
Proof.
  intros Hrun Hacct od' f1.
  unfold process_order, bind at 1, gets at 1. cbn [self running].
  rewrite Hrun. cbn [negb].
  unfold process_order_body.
  rewrite (process_order_starts env w od Hrun), Hacct.
  fold od'. subst f1.
  pose proof (evaluate_order_read_only (formatter env) (arith env) od'
                (balance_of acct) (risk_manager w)) as Hro.
  unfold try_except, advanced.
  unfold bind at 1, gets at 1. cbn [order_data].
  unfold bind at 1, on_self at 1, with_risk at 1.
  cbn [self order_data risk_manager].
  destruct (evaluate_order (formatter env) (arith env) od' (balance_of acct)
              (risk_manager w)) as [[d|e] rm] eqn:Hev;
    cbn [fst snd] in *; subst rm; [|reflexivity].
  cbn [self order_data running risk_manager published venue_calls
       clock_reads].
  destruct (approved d); cbn [negb].
  - unfold bind at 1, on_self at 1, venue at 1.
    cbn [self order_data running risk_manager published venue_calls
         clock_reads].
    unfold create_reply, submission_calls, create_call.
    rewrite <- !app_assoc. cbn [app]. rewrite !app_nil_r.
    destruct (venue_create_order env _ _ _ _ _) as [[result|]|e];
      reflexivity.
  - unfold bind at 1, lift_outcome at 1.
    destruct (with_order_id_fields env od) as (_ & _ & Hid & _).
    fold od' in Hid. by rewrite Hid.
Qed.

(** The start of [process_order] up to the answer of the exchange
    adapter, for an order that the risk manager approves. *)
Lemma process_order_submits env w od acct d :
  running w = true ->
  venue_get_account_info env = Ok acct ->
  fst (evaluate_order (formatter env) (arith env) (with_order_id env od)
         (balance_of acct) (risk_manager w)) = Ok d ->
  approved d = true ->
  let od' := with_order_id env od in
  let f1 :=
    mkFrame (advanced w (risk_manager w) [] (submission_calls od') 0) od' in
  process_order env (mkFrame w od) =
    match create_reply env od' with
    | Raise e => process_order_handler env e f1
    | Ok None => (Ok None, f1)
    | Ok (Some result) =>
        try_except
          (let* now := on_self (utcnow env) in
           set_order_data (update_with_reply result now) ;;;
           let* od2 := gets order_data in
           on_self (publish env "order.created" (OrderCreated od2)) ;;;
           (if is_filled_status (get (r_status result))
            then _handle_order_filled env result
            else ret tt) ;;;
           ret (Some result))
          (process_order_handler env) f1
    end.
Proof.
  intros Hrun Hacct Hev Happ od' f1.
  rewrite (process_order_evaluates env w od acct Hrun Hacct).
  cbn zeta. by rewrite Hev, Happ.
Qed.

(** C4 (as stated) fails: the order is approved and the adapter raises;
    [order.error] is published, and what [process_order] returns is
    [None]. *)
Lemma venue_exception_returns_none :
  let env := test_env (Raise (VenueError "insufficient funds")) (Ok None) in
  let r := process_order env (mkFrame started api_order) in
  fst (evaluate_order (formatter env) (arith env)
         (with_order_id env api_order) (Some 1000000%Q)
         (risk_manager started))
  = Ok {| approved := true; reason := None |}
  /\ published (self (snd r))
     = [("order.error", OrderError None "insufficient funds" "T0")]
  /\ fst r = Ok None.
Proof. cbn zeta. repeat split; vm_compute; reflexivity. Qed.

(** C4 (amended). For an order that the risk manager approves: if the
    adapter's [create_order] raises, [process_order] publishes an
    [order.error] event with the order id (what
    [order_data.get('order_id', 'unknown')] gives: the id of the order,
    [None] for an order whose [order_id] holds [None], the generated id
    for an order without the key) and the text of the exception, and
    returns [None]; if the adapter returns an empty reply,
    [process_order] returns [None] as well. *)
Theorem venue_failure_returns_none env w od acct d :
  running w = true ->
  venue_get_account_info env = Ok acct ->
  fst (evaluate_order (formatter env) (arith env) (with_order_id env od)
         (balance_of acct) (risk_manager w)) = Ok d ->
  approved d = true ->
  let od' := with_order_id env od in
  let reply := create_reply env od' in
  let order_id := get_default (o_order_id od') (Some "unknown") in
  (forall e,
     reply = Raise e ->
     let message :=
       OrderError order_id (str_exn e) (utcnow_iso env (clock_reads w)) in
     redis_publish env "order.error" message = Ok tt ->
     process_order env (mkFrame w od) =
       (Ok None,
        mkFrame
          {| running := true; risk_manager := risk_manager w;
             published := published w ++ [("order.error", message)];
             venue_calls := venue_calls w ++ submission_calls od';
             clock_reads := S (clock_reads w) |}
          od'))
  /\ (reply = Ok None -> fst (process_order env (mkFrame w od)) = Ok None)
  /\ order_id
     = match o_order_id od with
       | Absent => Some ("order_" +:+ uuid_hex8 env)
       | Null => None
       | Val id => Some id
       end.
Proof.
  intros Hrun Hacct Hev Happ od' reply order_id.
  pose proof (process_order_submits env w od acct d Hrun Hacct Hev Happ) as H.
  cbn zeta in H. fold od' reply in H. split; [|split].
  - intros e He message Hpub. rewrite H, He.
    unfold process_order_handler, bind, gets, on_self, utcnow, publish, ret.
    cbn [self order_data advanced clock_reads]. rewrite ?Nat.add_0_r.
    fold od' order_id. fold message. rewrite Hpub. cbn.
    by rewrite ?Hrun, ?app_nil_r, ?Nat.add_0_r.
  - intros He. by rewrite H, He.
  - subst order_id od'. apply with_order_id_fields.
Qed.

Lemma venue_failure_returns_none_witness :
  fst (process_order
         (test_env (Raise (VenueError "insufficient funds")) (Ok None))
         (mkFrame started api_order))
  = Ok None.
Proof.
  pose (env := test_env (Raise (VenueError "insufficient funds")) (Ok None)).
  assert (Hev :
    fst (evaluate_order (formatter env) (arith env)
           (with_order_id env api_order) (balance_of test_account)
           (risk_manager started))
    = Ok approval) by (vm_compute; reflexivity).
  destruct (venue_failure_returns_none env started api_order
              test_account _ eq_refl eq_refl Hev eq_refl) as [Hraise _].
  exact (f_equal fst
           (Hraise (VenueError "insufficient funds") eq_refl eq_refl)).
Defined.

(** The two other ways a submission can fail: an empty reply is answered
    with [None] and no event; a reply with [status: error] is published as
    [order.created] and returned to the caller. *)
Lemma venue_empty_and_error_replies :
  let empty :=
    process_order (test_env (Ok None) (Ok None))
      (mkFrame started api_order) in
  let failed :=
    process_order (test_env (Ok (Some (error_reply "down"))) (Ok None))
      (mkFrame started api_order) in
  (fst empty = Ok None /\ published (self (snd empty)) = [])
  /\ (fst failed = Ok (Some (error_reply "down"))
      /\ map fst (published (self (snd failed))) = ["order.created"]).
Proof. cbn zeta. repeat split; vm_compute; reflexivity. Qed.

End OrderManagerFacts.

Section CancelFacts.
Import OrderManagerM Props.

Implicit Types (env : Env) (w : OrderManager).

(** What [cancel_order] does refuse: when the venue reports [filled],
    [canceled] or [expired], it answers [False] and the adapter's
    [cancel_order] is not called; nothing is published. *)
Lemma cancel_order_refuses env w order_id reply :
  running w = true ->
  venue_get_order_status env order_id = Ok (Some reply) ->
  not_cancelable (get (r_status reply)) = true ->
  cancel_order env order_id w =
    (Ok false,
     {| running := true; risk_manager := risk_manager w;
        published := published w;
        venue_calls := venue_calls w ++ [CallGetOrderStatus order_id];
        clock_reads := clock_reads w |})
  /\ cancel_requested (venue_calls w ++ [CallGetOrderStatus order_id])
     = cancel_requested (venue_calls w).
Proof.
  intros Hrun Hst Hnc. split.
  - unfold cancel_order, get_order_status, try_except, bind, gets, venue, ret.
    cbn. rewrite Hrun. cbn. rewrite Hrun, Hst. cbn. rewrite Hnc.
    destruct (is_error_status (get (r_status reply))); by rewrite Hrun.
  - unfold cancel_requested. rewrite existsb_app. cbn.
    by rewrite orb_false_r.
Qed.

(** C7. The check of [cancel_order] lists [filled], [canceled] and
    [expired] only.  For an order that the venue reports as [closed],
    the status that [process_order] treats as a fill and that
    [reconcile_with_exchange] maps to [FILLED], and likewise for one
    reported as [rejected], [cancel_order] calls the adapter's
    [cancel_order], publishes [order.canceled] and answers [True]. *)
Theorem cancel_order_reaches_venue_for_closed :
  let run_with st :=
    cancel_order
      (test_env (Ok None) (Ok (Some (status_reply st "BTC/USDT"))))
      "o1" started in
  (OrderStateM.reconcile_state "closed" ∅ = OrderStateM.FILLED
   /\ is_filled_status (Some "closed") = true
   /\ fst (run_with "closed") = Ok true
   /\ venue_calls (snd (run_with "closed"))
      = [CallGetOrderStatus "o1"; CallCancelOrder "o1" (Some "BTC/USDT")]
   /\ published (snd (run_with "closed"))
      = [("order.canceled", OrderCanceled "o1" "T0")])
  /\ (OrderStateM.reconcile_state "rejected" ∅ = OrderStateM.REJECTED
      /\ fst (run_with "rejected") = Ok true
      /\ cancel_requested (venue_calls (snd (run_with "rejected"))) = true).
Proof. cbn zeta. repeat split; vm_compute; reflexivity. Qed.

End CancelFacts.

(** * More on the order state machine *)

Section OrderStateMore.
Import OrderStateM OrderOps Props OrderProps.

Implicit Types (m : OrderStateManager) (k : string) (s : OrderState).

Lemma same_keys_known m k :
  same_keys m ->
  is_Some (order_states m !! k) ->
  is_Some (order_history m !! k) /\ is_Some (retry_attempts m !! k).
Proof.
  intros [Hh Hr] Hk. apply elem_of_dom in Hk.
  split; apply elem_of_dom; congruence.
Qed.

Lemma same_keys_init : same_keys init.
Proof. split; cbn; by rewrite !dom_empty_L. Qed.

Lemma same_keys_initialize m k now :
  same_keys m -> same_keys (initialize_order m k now).
Proof.
  intros [Hh Hr]. split; cbn; rewrite !dom_insert_L; congruence.
Qed.

Lemma same_keys_update m k s dt t0 t1 :
  same_keys m ->
  fst (update_state m k s dt t0 t1) = Ok tt
  /\ same_keys (snd (update_state m k s dt t0 t1)).
Proof.
  intros Hm. destruct (order_states m !! k) as [s0|] eqn:Hs.
  - destruct (same_keys_known m k Hm) as [[h Hh] [n Hn]]; [by eexists|].
    rewrite (update_state_initialised _ _ _ _ _ _ _ _ Hs Hh).
    split; [done|]. destruct Hm as [Hd1 Hd2].
    split; cbn; by rewrite !dom_insert_lookup_L by by eexists.
  - rewrite (update_state_fresh _ _ _ _ _ _ Hs). split; [done|].
    destruct Hm as [Hd1 Hd2].
    split; cbn; rewrite !insert_insert_eq, !dom_insert_L; congruence.
Qed.

Lemma same_keys_should_retry m k :
  same_keys m ->
  (exists b, fst (should_retry m k) = Ok b)
  /\ same_keys (snd (should_retry m k)).
Proof.
  intros Hm. destruct (should_retry_cases m k) as [Ht|Hnt].
  - split; [by eexists|].
    destruct (should_retry_true _ _ Ht) as (s & n & Hs & _ & Hn & _ & ->).
    destruct Hm as [Hd1 Hd2]. split; cbn; [done|].
    by rewrite dom_insert_lookup_L by by eexists.
  - rewrite (should_retry_other _ _ Hnt). split; [|done].
    unfold should_retry in *.
    destruct (order_states m !! k) as [s|] eqn:Hs; [|by eexists].
    destruct (same_keys_known m k Hm) as [_ [n Hn]]; [by eexists|].
    rewrite Hn in *. cbn in *.
    destruct (retryable s && (n <? max_retries m)%Z); by eexists.
Qed.

Lemma same_keys_step m o : same_keys m -> same_keys (step m o).
Proof.
  intros Hm.
  destruct o as [k now|k s dt t0 t1| | |k|k st dt t0 t1]; cbn; try done.
  - by apply same_keys_initialize.
  - by apply same_keys_update.
  - by apply same_keys_should_retry.
  - by apply same_keys_update.
Qed.

Lemma same_keys_run m ops : same_keys m -> same_keys (run m ops).
Proof.
  revert m. induction ops as [|o ops IH]; intros m Hm; [done|].
  apply IH. by apply same_keys_step.
Qed.

(** X1. In every manager obtained from a new one by any sequence of
    calls the three dictionaries have the same keys, and no call raises:
    [update_state] and [reconcile_with_exchange] find the history they
    append to, and [should_retry] finds the counter it increments. *)
Theorem reachable_never_raises (pre : list op) (o : op) :
  same_keys (run init pre) /\ raises (run init pre) o = false.
Proof.
  assert (Hm : same_keys (run init pre))
    by apply same_keys_run, same_keys_init.
  split; [done|].
  destruct o as [k now|k s dt t0 t1| | |k|k st dt t0 t1]; cbn; try done.
  - by rewrite (proj1 (same_keys_update _ k s dt t0 t1 Hm)).
  - destruct (proj1 (same_keys_should_retry _ k Hm)) as [b ->]. done.
  - unfold reconcile_with_exchange.
    by rewrite (proj1 (same_keys_update _ k _ (Some dt) t0 t1 Hm)).
Qed.

Lemma step_other m o k :
  target o <> k ->
  order_states (step m o) !! k = order_states m !! k
  /\ order_history (step m o) !! k = order_history m !! k
  /\ retry_attempts (step m o) !! k = retry_attempts m !! k.
Proof.
  intros Hk.
  assert (Hupd : forall k' s dt t0 t1, k' <> k ->
    order_states (snd (update_state m k' s dt t0 t1)) !! k
      = order_states m !! k
    /\ order_history (snd (update_state m k' s dt t0 t1)) !! k
       = order_history m !! k
    /\ retry_attempts (snd (update_state m k' s dt t0 t1)) !! k
       = retry_attempts m !! k).
  { intros k' s dt t0 t1 Hne. unfold update_state.
    destruct (order_states m !! k'); cbn.
    - destruct (order_history m !! k'); cbn;
        by rewrite ?lookup_insert_ne by done.
    - rewrite lookup_insert_eq. cbn. by rewrite !lookup_insert_ne by done. }
  destruct o as [k' now|k' s dt t0 t1|k'|k'|k'|k' st dt t0 t1];
    cbn in *; try done.
  - by rewrite !lookup_insert_ne by done.
  - by apply Hupd.
  - destruct (should_retry_frame m k') as (-> & -> & _).
    split; [done|split; [done|]].
    destruct (should_retry_cases m k') as [Ht|Hnt].
    + destruct (should_retry_true _ _ Ht) as (? & ? & _ & _ & _ & _ & ->).
      cbn. by rewrite lookup_insert_ne by done.
    + by rewrite should_retry_other.
  - by apply Hupd.
Qed.

Lemma run_other m k (ops : list op) :
  Forall (fun o => target o <> k) ops ->
  order_states (run m ops) !! k = order_states m !! k
  /\ order_history (run m ops) !! k = order_history m !! k
  /\ retry_attempts (run m ops) !! k = retry_attempts m !! k.
Proof.
  intros Hops. revert m.
  induction Hops as [|o ops Ho Hops IH]; intros m; [done|].
  change (run m (o :: ops)) with (run (step m o) ops).
  destruct (IH (step m o)) as (-> & -> & ->). by apply step_other.
Qed.

(** X2. Calls about other orders leave an order alone: its state, its
    history and its retry counter are what they were; in particular an
    order that no call has mentioned is unknown to a manager that started
    new, has no history, and is refused a retry without being recorded. *)
Theorem other_orders_untouched m k (ops : list op) :
  Forall (fun o => target o <> k) ops ->
  (get_current_state (run m ops) k = get_current_state m k
   /\ get_state_history (run m ops) k = get_state_history m k
   /\ retry_attempts (run m ops) !! k = retry_attempts m !! k)
  /\ (get_current_state (run init ops) k = None
      /\ get_state_history (run init ops) k = []
      /\ should_retry (run init ops) k = (Ok false, run init ops)).
Proof.
  intros Hops.
  destruct (run_other m k ops Hops) as (Hs & Hh & Hr).
  destruct (run_other init k ops Hops) as (Hs0 & Hh0 & Hr0).
  unfold get_current_state, get_state_history.
  rewrite Hs, Hh, Hr, Hs0, Hh0. cbn. rewrite !lookup_empty. cbn.
  repeat split. unfold should_retry. rewrite Hs0. cbn.
  by rewrite lookup_empty.
Qed.

Lemma other_orders_untouched_witness :
  get_state_history
    (run init [UpdateState "o1" ERROR None 0 1; ShouldRetry "o1"]) "o2"
  = [].
Proof.
  refine (proj1 (proj2 (proj2 (other_orders_untouched init "o2"
            [UpdateState "o1" ERROR None 0 1; ShouldRetry "o1"] _)))).
  repeat constructor; done.
Defined.

Lemma update_state_history m k s dt t0 t1 :
  same_keys m ->
  get_state_history (snd (update_state m k s dt t0 t1)) k
  = match get_current_state m k with
    | Some _ => get_state_history m k ++ [mkEntry s t1 dt]
    | None => [mkEntry PENDING t0 None; mkEntry s t1 dt]
    end.
Proof.
  intros Hm. unfold get_current_state, get_state_history.
  destruct (order_states m !! k) as [s0|] eqn:Hs.
  - destruct (same_keys_known m k Hm) as [[h Hh] _]; [by eexists|].
    rewrite (update_state_initialised _ _ _ _ _ _ _ _ Hs Hh). cbn.
    by rewrite lookup_insert_eq, Hh.
  - rewrite (update_state_fresh _ _ _ _ _ _ Hs). cbn.
    by rewrite lookup_insert_eq.
Qed.

Lemma step_history_prefix m k o :
  same_keys m -> reinitializes k o = false ->
  get_state_history m k `prefix_of` get_state_history (step m o) k.
Proof.
  intros Hm Hre.
  assert (Hupd : forall s dt t0 t1,
    get_state_history m k
      `prefix_of` get_state_history (snd (update_state m k s dt t0 t1)) k).
  { intros s dt t0 t1. rewrite update_state_history by done.
    unfold get_current_state, get_state_history.
    destruct (order_states m !! k) as [s0|] eqn:Hs.
    - by apply prefix_app_r.
    - destruct Hm as [Hd _].
      assert (Hh : order_history m !! k = None).
      { apply not_elem_of_dom. rewrite <- Hd. by apply not_elem_of_dom. }
      rewrite Hh. apply prefix_nil. }
  destruct (decide (target o = k)) as [Hk|Hk].
  - destruct o as [k' now|k' s dt t0 t1|k'|k'|k'|k' st dt t0 t1];
      cbn in Hk; subst k'; cbn [step].
    + cbn in Hre. by apply bool_decide_eq_false in Hre.
    + apply Hupd.
    + reflexivity.
    + reflexivity.
    + unfold get_state_history.
      by destruct (should_retry_frame m k) as (_ & -> & _).
    + apply Hupd.
  - unfold get_state_history.
    by destruct (step_other m o k Hk) as (_ & -> & _).
Qed.

(** X3. The history of an order only grows.  In a manager obtained from
    a new one, [update_state] on a known order appends one entry with the
    new state, the clock reading and the details; on an unknown order it
    leaves the [PENDING] entry followed by that entry; and over any
    further calls that do not initialise the order again its earlier
    history stays as the beginning of its later history. *)
Theorem history_append_only (pre ops : list op) k :
  Forall (fun o => reinitializes k o = false) ops ->
  get_state_history (run init pre) k
    `prefix_of` get_state_history (run (run init pre) ops) k
  /\ (forall s dt t0 t1,
        get_state_history
          (snd (update_state (run init pre) k s dt t0 t1)) k
        = match get_current_state (run init pre) k with
          | Some _ =>
              get_state_history (run init pre) k ++ [mkEntry s t1 dt]
          | None => [mkEntry PENDING t0 None; mkEntry s t1 dt]
          end).
Proof.
  intros Hops.
  assert (Hm : same_keys (run init pre))
    by apply same_keys_run, same_keys_init.
  split; [|intros; by apply update_state_history].
  revert Hm. generalize (run init pre) as m.
  induction Hops as [|o ops Ho Hops IH]; intros m Hm; [done|].
  change (run m (o :: ops)) with (run (step m o) ops).
  etrans; [by apply step_history_prefix|].
  apply IH. by apply same_keys_step.
Qed.

Lemma history_append_only_witness :
  get_state_history (run init [UpdateState "o1" SENT None 0 1]) "o1"
    `prefix_of`
  get_state_history
    (run (run init [UpdateState "o1" SENT None 0 1])
       [Reconcile "o1" "closed" partial_fill_detail 2 3; ShouldRetry "o1"])
    "o1".
Proof.
  refine (proj1 (history_append_only [UpdateState "o1" SENT None 0 1]
            [Reconcile "o1" "closed" partial_fill_detail 2 3;
             ShouldRetry "o1"] "o1" _)).
  repeat constructor.
Defined.

(** X4. Retries that are spent stay spent: once the counter of a known
    order has reached the ceiling, no sequence of calls that does not
    initialise the order again, whatever transitions it contains, makes
    [should_retry] answer [True] for it. *)
Theorem spent_retries_stay_spent m k s n (ops : list op) :
  order_states m !! k = Some s ->
  retry_attempts m !! k = Some n ->
  (max_retries m <= n)%Z ->
  Forall (fun o => reinitializes k o = false) ops ->
  grants k m ops = 0%nat.
Proof.
  intros Hs Hn Hmax Hops.
  pose proof (grants_le_budget k ops m Hops) as H.
  unfold budget in H. rewrite Hs, Hn in H. lia.
Qed.

Lemma spent_retries_stay_spent_witness :
  grants "o1"
    (run init [ UpdateState "o1" ERROR None 0 1; ShouldRetry "o1";
                ShouldRetry "o1"; ShouldRetry "o1" ])
    [ UpdateState "o1" SENT None 2 3; UpdateState "o1" ERROR None 4 5;
      ShouldRetry "o1"; ShouldRetry "o1" ]
  = 0%nat.
Proof.
  apply (spent_retries_stay_spent _ "o1" ERROR 3).
  - vm_compute. reflexivity.
  - vm_compute. reflexivity.
  - vm_compute. discriminate.
  - repeat constructor.
Defined.

End OrderStateMore.

(** * More on the risk gate *)

Section RiskMore.
Import RiskM Props RiskProps.

Implicit Types (rm : RiskManager) (F : Formatter) (ar : Arith)
  (order : OrderData).

(** X5. The exposure that [evaluate_order] adds up over the open
    positions is the value recorded for the position under the order's
    symbol, and 0 when there is none. *)
Theorem exposure_is_position_value (symbol : option string)
    (positions : gmap (option string) Position) :
  Qeq (exposure_of symbol positions) (position_value symbol positions).
Proof.
  unfold exposure_of, position_value.
  apply (map_fold_weak_ind
           (fun r (m : gmap (option string) Position) =>
              Qeq r match m !! symbol with
                    | Some p => default 0%Q (p_value p)
                    | None => 0%Q
                    end)).
  - by rewrite lookup_empty.
  - intros i x m r Hi IH. case_decide as Hk.
    + subst i. rewrite lookup_insert_eq. rewrite Hi in IH.
      rewrite IH. ring.
    + by rewrite lookup_insert_ne.
Qed.

(** [evaluate_order] up to the first check, for a positive balance and
    an order whose value relative to the balance has been computed. *)
Lemma evaluate_order_sized F ar order balance v pct rm :
  (0 < balance)%Q ->
  order_value_of ar order = Ok v ->
  fdiv ar v balance = Ok pct ->
  evaluate_order F ar order (Some balance) rm
  = (let* position_size_pct := ret (Fin pct) in
     let symbol := get (o_symbol order) in
     let side := get (o_side order) in
     let account_balance := balance in
     let* max_position_size := gets max_position_size in
     if pf_gt position_size_pct (Fin max_position_size)
     then ret (reject ("Position size " +:+ fmt_pct F position_size_pct
                       +:+ " exceeds maximum "
                       +:+ fmt_pct F (Fin max_position_size)))
     else
     let* open_positions := gets open_positions in
     let* max_open_positions := gets max_open_positions in
     let* too_many :=
       if (max_open_positions <=? Z.of_nat (size open_positions))%Z
       then let* side_l := lift_outcome (lower_opt side) in
            ret (String.eqb side_l "buy")
       else ret false in
     if (too_many : bool)
     then ret (reject ("Maximum open positions ("
                       +:+ fmt_int F max_open_positions +:+ ") reached"))
     else
     let current_exposure := exposure_of symbol open_positions in
     let* current_exposure_pct :=
       lift_outcome
         (current_exposure_pct_of ar current_exposure account_balance) in
     let* side_l := lift_outcome (lower_opt side) in
     let new_exposure_pct :=
       if String.eqb side_l "buy"
       then pf_add ar (Fin current_exposure_pct) position_size_pct
       else Fin current_exposure_pct in
     let* max_exposure_per_asset := gets max_exposure_per_asset in
     if pf_gt new_exposure_pct (Fin max_exposure_per_asset)
     then ret (reject ("Total exposure to " +:+ str_opt symbol +:+ " ("
                       +:+ fmt_pct F new_exposure_pct
                       +:+ ") exceeds maximum "
                       +:+ fmt_pct F (Fin max_exposure_per_asset)))
     else
     let* daily_pnl := gets daily_pnl in
     let* max_daily_loss := gets max_daily_loss in
     if (Qlt_bool daily_pnl 0
         && Qlt_bool (fmul ar account_balance max_daily_loss)
              (Qabs daily_pnl))%bool
     then ret (reject ("Daily loss limit reached ("
                       +:+ fmt_2f F (Qabs daily_pnl) +:+ " > "
                       +:+ fmt_2f F (fmul ar account_balance max_daily_loss)
                       +:+ ")"))
     else ret {| approved := true; reason := None |}) rm.
Proof.
  intros Hb Hv Hdiv.
  unfold evaluate_order.
  rewrite Hv. cbn [compared_with_zero].
  unfold bind at 1, lift_outcome at 1.
  unfold bind at 1, lift_outcome at 1.
  unfold position_size_pct_of.
  rewrite (proj2 (Qlt_bool_true 0 balance) Hb), Hdiv.
  reflexivity.
Qed.

(** [evaluate_order] for a positive balance and an order with a side:
    no exception, and the decision below. *)
Lemma evaluate_order_decision F ar order side balance v pct exposure rm :
  (0 < balance)%Q ->
  get (o_side order) = Some side ->
  order_value_of ar order = Ok v ->
  fdiv ar v balance = Ok pct ->
  fdiv ar (exposure_of (get (o_symbol order)) (open_positions rm)) balance
  = Ok exposure ->
  evaluate_order F ar order (Some balance) rm
  = (Ok (decision F ar rm (get (o_symbol order)) side balance pct exposure),
     rm).
Proof.
  intros Hb Hside Hv Hdiv Hexp.
  rewrite (evaluate_order_sized F ar order balance v pct) by done.
  unfold decision, new_exposure, current_exposure_pct_of.
  rewrite (proj2 (Qlt_bool_true 0 balance) Hb).
  rewrite Hside. unfold bind, lift_outcome, gets, ret, lower_opt. cbn.
  fold (is_buy side).
  destruct (Qlt_bool (max_position_size rm) pct); [done|].
  destruct (max_open_positions rm <=? Z.of_nat (size (open_positions rm)))%Z;
    cbn; destruct (is_buy side); cbn; try done;
    rewrite Hexp; cbn;
    repeat match goal with
           | |- context [if ?b then _ else _] => destruct b; cbn
           end; done.
Qed.

Lemma decision_approved F ar rm symbol side balance pct exposure :
  approved (decision F ar rm symbol side balance pct exposure) = true <->
  within_position_size rm pct
  /\ within_open_positions rm side
  /\ within_exposure ar rm side pct exposure
  /\ within_daily_loss ar rm balance.
Proof.
  unfold decision, within_position_size, within_open_positions,
    within_exposure, within_daily_loss.
  set (ex := new_exposure ar side pct exposure).
  set (limit := fmul ar balance (max_daily_loss rm)).
  destruct (Qlt_bool (max_position_size rm) pct) eqn:E1.
  { apply Qlt_bool_true in E1. cbn. split; [discriminate|].
    intros (H & _). exfalso. by apply (Qle_not_lt _ _ H). }
  apply Qlt_bool_false in E1.
  destruct ((max_open_positions rm <=? Z.of_nat (size (open_positions rm)))%Z
            && is_buy side) eqn:E2.
  { apply andb_true_iff in E2 as [E2 Eb]. apply Z.leb_le in E2.
    cbn. split; [discriminate|].
    intros (_ & H & _). specialize (H Eb). lia. }
  assert (Hopen : is_buy side = true ->
            (Z.of_nat (size (open_positions rm)) < max_open_positions rm)%Z).
  { intros Eb. rewrite Eb, andb_true_r in E2. by apply Z.leb_gt in E2. }
  destruct (Qlt_bool (max_exposure_per_asset rm) ex) eqn:E3.
  { apply Qlt_bool_true in E3. cbn. split; [discriminate|].
    intros (_ & _ & H & _). exfalso. by apply (Qle_not_lt _ _ H). }
  apply Qlt_bool_false in E3.
  destruct (Qlt_bool (daily_pnl rm) 0
            && Qlt_bool limit (Qabs (daily_pnl rm))) eqn:E4.
  { apply andb_true_iff in E4 as [E4 E5].
    apply Qlt_bool_true in E4. apply Qlt_bool_true in E5.
    cbn. split; [discriminate|].
    intros (_ & _ & _ & H). exfalso. by apply (Qle_not_lt _ _ (H E4)). }
  cbn. split; [intros _|done]. repeat split; try done.
  intros Hneg. apply andb_false_iff in E4 as [E4|E4].
  - apply Qlt_bool_false in E4. exfalso. by apply (Qle_not_lt _ _ E4).
  - by apply Qlt_bool_false in E4.
Qed.

Lemma decision_reason F ar rm symbol side balance pct exposure :
  let d := decision F ar rm symbol side balance pct exposure in
  (approved d = true /\ reason d = None)
  \/ (approved d = false /\ exists why, reason d = Some why).
Proof.
  unfold decision.
  repeat match goal with
         | |- context [if ?b then reject _ else _] => destruct b
         end; cbn; eauto.
Qed.

(** X6. For a positive balance and an order that has a side and whose
    quantity and price are numbers: when the program has computed the
    position size [pct = quantity * price / account_balance] and the
    current exposure [exposure = current_exposure / account_balance],
    whatever its arithmetic rounds, [evaluate_order] raises nothing and
    approves exactly when the four limits hold of these numbers: [pct]
    is within [max_position_size]; for a buy, fewer than
    [max_open_positions] positions are open; [exposure], plus [pct] for
    a buy, is within [max_exposure_per_asset]; and a negative daily P&L
    is within [account_balance * max_daily_loss] as computed.  An
    approval carries no reason, a rejection carries one. *)
Theorem evaluate_order_approves_iff
    F ar order side balance v pct exposure rm :
  (0 < balance)%Q ->
  get (o_side order) = Some side ->
  order_value_of ar order = Ok v ->
  fdiv ar v balance = Ok pct ->
  fdiv ar (exposure_of (get (o_symbol order)) (open_positions rm)) balance
  = Ok exposure ->
  exists d,
    evaluate_order F ar order (Some balance) rm = (Ok d, rm)
    /\ (approved d = true <->
        within_position_size rm pct
        /\ within_open_positions rm side
        /\ within_exposure ar rm side pct exposure
        /\ within_daily_loss ar rm balance)
    /\ ((approved d = true /\ reason d = None)
        \/ (approved d = false /\ exists why, reason d = Some why)).
Proof.
  intros Hb Hside Hv Hdiv Hexp.
  exists (decision F ar rm (get (o_symbol order)) side balance pct exposure).
  split; [by apply (evaluate_order_decision F ar order side balance v)|].
  split; [apply decision_approved|apply decision_reason].
Qed.

Lemma evaluate_order_approves_iff_witness :
  exists d,
    evaluate_order DecimalFormat.python_format exact api_order
      (Some 1000000%Q) (init 0) = (Ok d, init 0)
    /\ (approved d = true <->
        within_position_size (init 0) ((5 # 10) * 20000 / 1000000)
        /\ within_open_positions (init 0) "buy"
        /\ within_exposure exact (init 0) "buy"
             ((5 # 10) * 20000 / 1000000) (0 / 1000000)
        /\ within_daily_loss exact (init 0) 1000000)
    /\ ((approved d = true /\ reason d = None)
        \/ (approved d = false /\ exists why, reason d = Some why)).
Proof.
  apply (evaluate_order_approves_iff DecimalFormat.python_format exact
           api_order "buy" 1000000 ((5 # 10) * 20000)%Q);
    vm_compute; reflexivity.
Defined.

(** [evaluate_order] for an order without a side. *)
Lemma evaluate_order_no_side F ar order balance v pct exposure rm :
  (0 < balance)%Q ->
  get (o_side order) = None ->
  order_value_of ar order = Ok v ->
  fdiv ar v balance = Ok pct ->
  fdiv ar (exposure_of (get (o_symbol order)) (open_positions rm)) balance
  = Ok exposure ->
  evaluate_order F ar order (Some balance) rm
  = (if Qlt_bool (max_position_size rm) pct
     then Ok (reject ("Position size " +:+ fmt_pct F (Fin pct)
                      +:+ " exceeds maximum "
                      +:+ fmt_pct F (Fin (max_position_size rm))))
     else Raise (AttributeError
                   "'NoneType' object has no attribute 'lower'"),
     rm).
Proof.
  intros Hb Hside Hv Hdiv Hexp.
  rewrite (evaluate_order_sized F ar order balance v pct) by done.
  unfold current_exposure_pct_of.
  rewrite (proj2 (Qlt_bool_true 0 balance) Hb).
  rewrite Hside. unfold bind, lift_outcome, gets, ret, lower_opt. cbn.
  destruct (Qlt_bool (max_position_size rm) pct); [done|].
  destruct (max_open_positions rm <=? Z.of_nat (size (open_positions rm)))%Z;
    cbn; [done|].
  by rewrite Hexp.
Qed.

(** X7. An order without a side whose quantity and price are numbers:
    with a positive balance, once the position size as computed is
    within [max_position_size], [evaluate_order] raises
    [AttributeError] from [side.lower()], whatever the other limits
    are; the risk manager is unchanged. *)
Theorem order_without_side_raises F ar order balance v pct exposure rm :
  (0 < balance)%Q ->
  get (o_side order) = None ->
  order_value_of ar order = Ok v ->
  fdiv ar v balance = Ok pct ->
  fdiv ar (exposure_of (get (o_symbol order)) (open_positions rm)) balance
  = Ok exposure ->
  within_position_size rm pct ->
  evaluate_order F ar order (Some balance) rm
  = (Raise (AttributeError "'NoneType' object has no attribute 'lower'"),
     rm).
Proof.
  intros Hb Hside Hv Hdiv Hexp Hsize.
  rewrite (evaluate_order_no_side F ar order balance v pct exposure)
    by done.
  by rewrite (proj2 (Qlt_bool_false _ _) Hsize).
Qed.

Lemma order_without_side_raises_witness :
  fst (evaluate_order DecimalFormat.python_format exact
         (mkOrder Null (Val "BTC") Null (Val (PyFloat 1))
            (Val (PyFloat 100)) Absent Absent Absent Absent)
         (Some 1000000%Q) (init 0))
  = Raise (AttributeError "'NoneType' object has no attribute 'lower'").
Proof.
  refine (f_equal fst
            (order_without_side_raises _ exact _ 1000000 (1 * 100)%Q
               (1 * 100 / 1000000)%Q (0 / 1000000)%Q _ _ _ _ _ _ _));
    vm_compute; (reflexivity || discriminate).
Defined.

(** X8. Once the daily loss exceeds [account_balance * max_daily_loss]
    as the program computes it, no order is approved, neither a buy nor
    a sell: whatever [evaluate_order] returns is a rejection. *)
Theorem breaker_blocks_every_order F ar order balance rm d :
  breaker_tripped ar rm balance ->
  fst (evaluate_order F ar order (Some balance) rm) = Ok d ->
  approved d = false.
Proof.
  intros [Hneg Hloss] Hd.
  apply Qlt_bool_true in Hneg. apply Qlt_bool_true in Hloss.
  unfold evaluate_order, position_size_pct_of, current_exposure_pct_of,
    bind, lift_outcome, gets, ret in Hd.
  cbn [compared_with_zero] in Hd.
  repeat match type of Hd with
         | context [match ?x with _ => _ end] =>
             match x with
             | context [match _ with _ => _ end] => fail 1
             | _ => destruct x eqn:?
             end; cbn [fst snd] in Hd
         end;
    first [ discriminate
          | by injection Hd as <-
          | exfalso;
            match goal with
            | H : (_ && _)%bool = false |- _ =>
                rewrite Hneg, Hloss in H; discriminate H
            end ].
Qed.

Lemma breaker_blocks_every_order_witness :
  let order :=
    mkOrder Null (Val "BTC") (Val "sell") (Val (PyFloat 1))
      (Val (PyFloat 100)) Absent Absent (Val "new") Absent in
  let rm := set_daily_pnl (fun _ => (-300)%Q) (init 0) in
  let d := reject "Daily loss limit reached (300.00 > 200.00)" in
  fst (evaluate_order DecimalFormat.python_format exact order
         (Some 10000%Q) rm) = Ok d
  /\ approved d = false.
Proof.
  cbn zeta.
  assert (Hev :
    fst (evaluate_order DecimalFormat.python_format exact
           (mkOrder Null (Val "BTC") (Val "sell") (Val (PyFloat 1))
              (Val (PyFloat 100)) Absent Absent (Val "new") Absent)
           (Some 10000%Q) (set_daily_pnl (fun _ => (-300)%Q) (init 0)))
    = Ok (reject "Daily loss limit reached (300.00 > 200.00)"))
    by (vm_compute; reflexivity).
  split; [exact Hev|].
  refine (breaker_blocks_every_order _ exact _ 10000 _ _ _ Hev).
  split; vm_compute; reflexivity.
Defined.

(** X9. [reset_daily_metrics] zeroes the daily P&L, empties the daily
    trades and stamps the reset, and keeps the open positions and the
    limits; afterwards the daily-loss limit rejects no order: for a
    positive balance and an order that has a side and whose quantity
    and price are numbers, with the position size and the current
    exposure as the program computes them, the order is approved
    exactly when the three other limits hold. *)
Theorem reset_rearms_trading
    F ar order side balance v pct exposure rm now :
  (0 < balance)%Q ->
  get (o_side order) = Some side ->
  order_value_of ar order = Ok v ->
  fdiv ar v balance = Ok pct ->
  fdiv ar (exposure_of (get (o_symbol order)) (open_positions rm)) balance
  = Ok exposure ->
  let rm' := snd (reset_daily_metrics now rm) in
  (daily_pnl rm' = 0%Q /\ daily_trades rm' = [] /\ last_reset rm' = now)
  /\ open_positions rm' = open_positions rm
  /\ RiskConfig.limits rm' = RiskConfig.limits rm
  /\ exists d,
       evaluate_order F ar order (Some balance) rm' = (Ok d, rm')
       /\ (approved d = true <->
           within_position_size rm pct
           /\ within_open_positions rm side
           /\ within_exposure ar rm side pct exposure).
Proof.
  intros Hb Hside Hv Hdiv Hexp rm'. repeat split.
  exists (decision F ar rm' (get (o_symbol order)) side balance pct exposure).
  split; [by apply (evaluate_order_decision F ar order side balance v)|].
  rewrite decision_approved.
  unfold within_position_size, within_open_positions, within_exposure,
    within_daily_loss. subst rm'. cbn.
  split; [intros (? & ? & ? & _); done|intros (? & ? & ?)].
  repeat split; done.
Qed.

Lemma reset_rearms_trading_witness :
  daily_pnl
    (snd (reset_daily_metrics 7
            (set_daily_pnl (fun _ => (-300)%Q) (init 0))))
  = 0%Q.
Proof.
  refine (proj1 (proj1 (reset_rearms_trading DecimalFormat.python_format
            exact api_order "buy" 10000 ((5 # 10) * 20000)%Q
            ((5 # 10) * 20000 / 10000)%Q (0 / 10000)%Q
            (set_daily_pnl (fun _ => (-300)%Q) (init 0)) 7 _ _ _ _ _)));
    vm_compute; reflexivity.
Defined.

(** X10. Positions are kept one per symbol.  Recording the same
    position twice is recording it once, and a second position for the
    symbol replaces the first; closing the symbol removes it and adds
    the P&L to the daily P&L once: a second close changes nothing; and
    a symbol that was not open before is, after an open and a close,
    not open again. *)
Theorem positions_one_per_symbol ar rm position position' pnl pnl' :
  p_symbol position' = p_symbol position ->
  do_calls ar rm [Open position; Open position]
  = do_call ar rm (Open position)
  /\ do_calls ar rm [Open position; Open position']
     = do_call ar rm (Open position')
  /\ open_positions
       (do_calls ar rm [Open position; Close (p_symbol position) pnl])
     = delete (p_symbol position) (open_positions rm)
  /\ daily_pnl
       (do_calls ar rm [Open position; Close (p_symbol position) pnl])
     = fadd ar (daily_pnl rm) pnl
  /\ do_calls ar rm [Open position; Close (p_symbol position) pnl;
                     Close (p_symbol position) pnl']
     = do_calls ar rm [Open position; Close (p_symbol position) pnl]
  /\ size (open_positions (do_call ar rm (Open position)))
     = match open_positions rm !! p_symbol position with
       | Some _ => size (open_positions rm)
       | None => S (size (open_positions rm))
       end.
Proof.
  intros Hsym.
  assert (Hclose :
    do_calls ar rm [Open position; Close (p_symbol position) pnl]
    = set_daily_pnl (fun d => fadd ar d pnl)
        (set_positions (fun ps => delete (p_symbol position) ps)
           (do_call ar rm (Open position)))).
  { unfold do_calls. cbn [fold_left do_call].
    rewrite record_position_close_known; [done|].
    cbn. rewrite lookup_insert_eq. by eexists. }
  split; [|split; [|split; [|split; [|split]]]].
  - unfold do_calls. cbn. unfold set_positions. cbn.
    by rewrite insert_insert_eq.
  - unfold do_calls. cbn. unfold set_positions. cbn.
    by rewrite Hsym, insert_insert_eq.
  - rewrite Hclose. cbn. by rewrite delete_insert_eq.
  - by rewrite Hclose.
  - change (do_calls ar rm [Open position; Close (p_symbol position) pnl;
                            Close (p_symbol position) pnl'])
      with (do_call ar
              (do_calls ar rm [Open position; Close (p_symbol position) pnl])
              (Close (p_symbol position) pnl')).
    rewrite Hclose. cbn [do_call].
    rewrite record_position_close_unknown; [done|].
    cbn. apply lookup_delete_eq.
  - cbn. destruct (open_positions rm !! p_symbol position) eqn:E.
    + rewrite <- (insert_delete_id (open_positions rm) _ _ E) at 2.
      rewrite <- insert_delete_eq.
      by rewrite !map_size_insert_None by apply lookup_delete_eq.
    + by rewrite map_size_insert_None.
Qed.

Lemma positions_one_per_symbol_witness :
  daily_pnl
    (do_calls exact (init 0)
       [ Open (mkPosition (Some "BTC") (Some "buy") (Some 1%Q) (Some 100%Q)
                 (Some 100%Q));
         Close (Some "BTC") 5 ])
  = (0 + 5)%Q.
Proof.
  refine (proj1 (proj2 (proj2 (proj2
    (positions_one_per_symbol exact (init 0)
       (mkPosition (Some "BTC") (Some "buy") (Some 1%Q) (Some 100%Q)
          (Some 100%Q))
       (mkPosition (Some "BTC") (Some "buy") (Some 2%Q) (Some 100%Q)
          (Some 200%Q))
       5 6 _))))).
  reflexivity.
Defined.

Lemma record_trades_snoc ar rm trades trade :
  record_trades ar rm (trades ++ [trade])
  = snd (record_trade ar trade (record_trades ar rm trades)).
Proof. unfold record_trades. by rewrite fold_left_app. Qed.

Lemma record_trade_once ar trade rm :
  daily_trades (snd (record_trade ar trade rm)) = daily_trades rm ++ [trade]
  /\ daily_pnl (snd (record_trade ar trade rm))
     = (if is_closing trade
        then fadd ar (daily_pnl rm) (trade_pnl trade)
        else daily_pnl rm)
  /\ open_positions (snd (record_trade ar trade rm)) = open_positions rm
  /\ RiskConfig.limits (snd (record_trade ar trade rm))
     = RiskConfig.limits rm.
Proof.
  unfold record_trade, is_closing, trade_pnl, bind, modify, ret.
  destruct (default false (t_is_closing_trade trade)); cbn;
    repeat split; reflexivity.
Qed.

Lemma Qsum_snoc (l : list Q) (x : Q) : Qeq (Qsum (l ++ [x])) (Qsum l + x).
Proof.
  induction l as [|y l IH].
  - change (Qeq (x + 0) (0 + x)). ring.
  - change (Qeq (y + Qsum (l ++ [x])) (y + Qsum l + x)).
    rewrite IH. ring.
Qed.

Lemma accumulated_snoc ar start (l : list Q) (x : Q) :
  accumulated ar start (l ++ [x]) = fadd ar (accumulated ar start l) x.
Proof. unfold accumulated. by rewrite fold_left_app. Qed.

(** X11. [record_trade] keeps every trade and books the P&L of the
    closing ones only: after any sequence of calls the daily trades are
    the earlier ones followed by the recorded trades in order; the
    daily P&L is the one before with the [pnl] of the closing trades (0
    for a closing trade without one) added to it one after the other,
    which without rounding is the daily P&L before plus their sum; and
    the open positions and the limits are untouched. *)
Theorem record_trade_books_closing_trades ar rm (trades : list Trade) :
  daily_trades (record_trades ar rm trades) = daily_trades rm ++ trades
  /\ daily_pnl (record_trades ar rm trades)
     = accumulated ar (daily_pnl rm)
         (map trade_pnl (List.filter is_closing trades))
  /\ Qeq (daily_pnl (record_trades exact rm trades))
         (daily_pnl rm + Qsum (map booked_pnl trades))
  /\ open_positions (record_trades ar rm trades) = open_positions rm
  /\ RiskConfig.limits (record_trades ar rm trades) = RiskConfig.limits rm.
Proof.
  induction trades as [|trade trades IH] using rev_ind.
  - cbn. rewrite app_nil_r. repeat split; try done.
    change (Qeq (daily_pnl rm) (daily_pnl rm + 0)). ring.
  - destruct IH as (Ht & Hp & Hq & Ho & Hl). rewrite !record_trades_snoc.
    destruct (record_trade_once ar trade (record_trades ar rm trades))
      as (Ht' & Hp' & Ho' & Hl').
    destruct (record_trade_once exact trade (record_trades exact rm trades))
      as (_ & Hq' & _ & _).
    rewrite Ht', Hp', Ho', Hl', Ht, Hp, Ho, Hl, Hq', <- app_assoc.
    rewrite List.filter_app, !map_app. cbn [List.filter map].
    repeat split; try done.
    + destruct (is_closing trade); cbn [map app].
      * by rewrite accumulated_snoc.
      * by rewrite app_nil_r.
    + rewrite Qsum_snoc.
      assert (Hb : booked_pnl trade
                   = if is_closing trade then trade_pnl trade else 0%Q)
        by done.
      rewrite Hb.
      destruct (is_closing trade); cbn [fadd exact]; rewrite Hq; ring.
Qed.

End RiskMore.

Section ConfigFacts.
Import RiskM RiskConfig.

Lemma dict_update_empty (c : Config) : dict_update c empty_config = c.
Proof. by destruct c. Qed.

Lemma set_limits_empty (rm : RiskManager) : set_limits empty_config rm = rm.
Proof. by destruct rm. Qed.

Lemma or_else_assoc {A} (a b c : option A) :
  or_else a (or_else b c) = or_else (or_else a b) c.
Proof. by destruct a. Qed.

(** X12. The limits follow the configuration.  A risk manager built
    without configuration has the default limits (5%, 2%, 5 positions,
    10%); [update_config] overrides exactly the limits named in the new
    configuration, returns the merged configuration, and leaves
    positions, P&L and trades alone; building with a configuration and
    then updating gives the limits of building with the merged
    configuration; an empty update changes nothing; and two updates in a
    row are one update with the second merged over the first. *)
Theorem update_config_merges (cfg : option Config) (n1 n2 : Config)
    (c : ConfiguredRisk) (now : Z) :
  manager (init_with None now) = init now
  /\ (let c' := snd (update_config n1 (init_with cfg now)) in
      limits (manager c')
      = limits (manager
                  (init_with
                     (Some (dict_update (default empty_config cfg) n1)) now))
      /\ config c' = dict_update (default empty_config cfg) n1)
  /\ (let c' := snd (update_config n1 c) in
      fst (update_config n1 c) = Ok (dict_update (config c) n1)
      /\ open_positions (manager c') = open_positions (manager c)
      /\ daily_pnl (manager c') = daily_pnl (manager c)
      /\ daily_trades (manager c') = daily_trades (manager c))
  /\ snd (update_config empty_config c) = c
  /\ snd (update_config n2 (snd (update_config n1 c)))
     = snd (update_config (dict_update n1 n2) c).
Proof.
  split; [done|]. split; [|split; [done|split]].
  - cbn. split; [|done]. unfold limits. cbn.
    destruct n1 as [[a|] [b|] [x|] [y|]]; reflexivity.
  - cbn. rewrite dict_update_empty, set_limits_empty. by destruct c.
  - cbn. unfold dict_update, set_limits. cbn.
    rewrite !or_else_assoc. f_equal. f_equal;
      by destruct n1 as [[a|] [b|] [x|] [y|]],
                  n2 as [[a'|] [b'|] [x'|] [y'|]].
Qed.

End ConfigFacts.



(** * More on the order manager *)

Section OrderManagerMore.
Import RiskM OrderManagerM Props ManagerProps RiskProps.

Implicit Types (env : Env) (w : OrderManager) (od : OrderData).

(** X13. A manager that is not running does nothing: [process_order]
    answers [None], [cancel_order] answers [False] and
    [get_order_status] answers an error reply, without a call on the
    exchange adapter, a message on the event bus or a change of the risk
    manager or of the order; this is the state after [stop()]. *)
Theorem stopped_manager_does_nothing env w od order_id :
  running w = false ->
  process_order env (mkFrame w od) = (Ok None, mkFrame w od)
  /\ cancel_order env order_id w = (Ok false, w)
  /\ get_order_status env order_id w
     = (Ok (error_reply "Order manager not running"), w)
  /\ running (snd (stop (snd (start w)))) = false.
Proof.
  intros Hrun.
  unfold process_order, cancel_order, get_order_status, bind, gets, ret.
  cbn. by rewrite Hrun.
Qed.

Lemma stopped_manager_does_nothing_witness :
  process_order (test_env (Ok None) (Ok None))
    (mkFrame (snd (stop started)) api_order)
  = (Ok None, mkFrame (snd (stop started)) api_order).
Proof.
  exact (proj1 (stopped_manager_does_nothing (test_env (Ok None) (Ok None))
                  (snd (stop started)) api_order "o1" eq_refl)).
Defined.

(** X14. An order that the risk manager rejects does not reach the
    venue: [process_order] publishes [order.rejected] with what
    [order_data['order_id']] holds (the id of the order, [None] when
    the key holds [None], the generated id when the key was absent) and
    the reason, answers [None], and the only call on the exchange
    adapter is the balance query; the risk manager is unchanged. *)
Theorem rejected_order_never_reaches_venue env w od acct d :
  running w = true ->
  venue_get_account_info env = Ok acct ->
  fst (evaluate_order (formatter env) (arith env) (with_order_id env od)
         (balance_of acct) (risk_manager w)) = Ok d ->
  approved d = false ->
  let message :=
    OrderRejected (handled_id env od) (reason d)
      (utcnow_iso env (clock_reads w)) in
  redis_publish env "order.rejected" message = Ok tt ->
  process_order env (mkFrame w od)
  = (Ok None,
     mkFrame
       (advanced w (risk_manager w) [("order.rejected", message)]
          [CallGetAccountInfo] 1)
       (with_order_id env od)).
Proof.
  intros Hrun Hacct Hev Happ message Hpub.
  rewrite (process_order_evaluates env w od acct Hrun Hacct).
  cbn zeta. rewrite Hev, Happ.
  unfold try_except, bind, on_self, utcnow, publish, ret.
  cbn [self order_data advanced clock_reads]. rewrite Nat.add_0_r.
  fold message. rewrite Hpub. unfold advanced. cbn.
  by rewrite <- !app_assoc, Nat.add_1_r.
Qed.

(** After the venue has accepted the order and [order.created] has been
    published: what is left of [process_order]. *)
Lemma process_order_after_created env w od acct d result :
  running w = true ->
  venue_get_account_info env = Ok acct ->
  fst (evaluate_order (formatter env) (arith env) (with_order_id env od)
         (balance_of acct) (risk_manager w)) = Ok d ->
  approved d = true ->
  let od' := with_order_id env od in
  create_reply env od' = Ok (Some result) ->
  let od2 := update_with_reply result (utcnow_iso env (clock_reads w)) od' in
  redis_publish env "order.created" (OrderCreated od2) = Ok tt ->
  let f2 :=
    mkFrame
      (advanced w (risk_manager w) [("order.created", OrderCreated od2)]
         (submission_calls od') 1) od2 in
  process_order env (mkFrame w od)
  = match (if is_filled_status (get (r_status result))
           then _handle_order_filled env result
           else ret tt) f2 with
    | (Ok _, f) => (Ok (Some result), f)
    | (Raise e, f) => process_order_handler env e f
    end.
Proof.
  intros Hrun Hacct Hev Happ od' Hcreate od2 Hpub f2.
  rewrite (process_order_submits env w od acct d Hrun Hacct Hev Happ).
  cbn zeta. fold od'. rewrite Hcreate.
  unfold try_except.
  unfold bind at 1, on_self at 1, utcnow at 1.
  cbn [self order_data advanced clock_reads].
  unfold bind at 1, set_order_data at 1, modify at 1.
  cbn [self order_data clock_reads].
  unfold bind at 1, gets at 1. cbn [order_data].
  rewrite Nat.add_0_r. fold od2.
  unfold bind at 1, on_self at 1, publish at 1. cbn [self order_data].
  rewrite Hpub.
  cbn [self order_data running risk_manager published venue_calls
       clock_reads].
  match goal with
  | |- context [bind _ _ ?f] =>
      assert (Hf : f = f2)
        by (subst f2; unfold advanced; cbn;
            by rewrite ?app_nil_r, ?Nat.add_0_r, ?Nat.add_1_r);
      rewrite Hf
  end.
  unfold bind at 1.
  destruct ((if is_filled_status (get (r_status result))
             then _handle_order_filled env result else ret tt) f2)
    as [[[]|e] f]; reflexivity.
Qed.

(** [_handle_order_filled] when the fee, the quantity, the price and the
    side are there and the trade message is accepted. *)
Lemma handle_order_filled_books env w od result fee q p side :
  fee_cost (r_fee result) = Ok fee ->
  filled_quantity od result = Some q ->
  filled_price od result = Some p ->
  get (o_side od) = Some side ->
  let trade :=
    TradeExecuted (trade_of od result fee (utcnow_iso env (clock_reads w))) in
  redis_publish env "trade.executed" trade = Ok tt ->
  _handle_order_filled env result (mkFrame w od)
  = (Ok tt,
     mkFrame
       (advanced w
          (snd ((if is_buy side
                 then record_position_open (position_of (arith env) od q p)
                 else record_position_close (arith env) (get (o_symbol od))
                        (fmul (arith env) (num_val q) (num_val p)))
                  (risk_manager w)))
          [("trade.executed", trade)] [] 1)
       od).
Proof.
  intros Hfee Hq Hp Hside trade Hpub.
  unfold _handle_order_filled.
  unfold bind at 1, gets at 1. cbn [order_data].
  unfold bind at 1, lift_outcome at 1. rewrite Hfee.
  unfold bind at 1, on_self at 1, utcnow at 1. cbn [self order_data].
  unfold bind at 1, on_self at 1, publish at 1. cbn [self order_data].
  fold (filled_quantity od result) (filled_price od result).
  fold (trade_of od result fee (utcnow_iso env (clock_reads w))).
  fold trade. rewrite Hpub. cbn [td_quantity td_price trade_of].
  rewrite Hq, Hp.
  unfold bind at 1, lift_outcome at 1. cbn [py_mul].
  unfold bind at 1, lift_outcome at 1. rewrite Hside. cbn [lower_opt].
  fold (is_buy side). cbn [fmap option_fmap option_map].
  unfold advanced. rewrite app_nil_r, Nat.add_1_r.
  destruct (is_buy side); unfold on_self, with_risk;
    cbn [self order_data risk_manager].
  - cbn. unfold position_of. by rewrite Hside.
  - destruct (open_positions (risk_manager w) !! get (o_symbol od)) eqn:E.
    + by rewrite record_position_close_known by by eexists.
    + by rewrite record_position_close_unknown.
Qed.

Lemma advanced_advanced w rm rm' m1 m2 c1 c2 n1 n2 :
  advanced (advanced w rm m1 c1 n1) rm' m2 c2 n2
  = advanced w rm' (m1 ++ m2) (c1 ++ c2) (n1 + n2).
Proof.
  unfold advanced. cbn. by rewrite !app_assoc, Nat.add_assoc.
Qed.

(** X15. An approved order that the venue accepts without filling it:
    [process_order] writes into the order the venue's id, the status
    of the reply ([pending] when the reply has no status, [None] when
    its status holds [None]) and the time, publishes [order.created]
    with the updated order, and returns the venue's reply; the venue
    has been called twice, for the balance and for the order, and the
    risk manager is unchanged. *)
Theorem accepted_order_is_announced env w od acct d result :
  running w = true ->
  venue_get_account_info env = Ok acct ->
  fst (evaluate_order (formatter env) (arith env) (with_order_id env od)
         (balance_of acct) (risk_manager w)) = Ok d ->
  approved d = true ->
  let od' := with_order_id env od in
  create_reply env od' = Ok (Some result) ->
  let od2 := update_with_reply result (utcnow_iso env (clock_reads w)) od' in
  redis_publish env "order.created" (OrderCreated od2) = Ok tt ->
  is_filled_status (get (r_status result)) = false ->
  process_order env (mkFrame w od)
  = (Ok (Some result),
     mkFrame
       (advanced w (risk_manager w) [("order.created", OrderCreated od2)]
          (submission_calls od') 1)
       od2)
  /\ get (o_exchange_order_id od2) = r_id result
  /\ get (o_status od2) = get_default (r_status result) (Some "pending")
  /\ get (o_order_id od2) = handled_id env od.
Proof.
  intros Hrun Hacct Hev Happ od' Hcreate od2 Hpub Hfilled.
  rewrite (process_order_after_created env w od acct d result)
    by done.
  fold od' od2. rewrite Hfilled. split; [done|].
  subst od2. cbn [update_with_reply o_exchange_order_id o_status o_order_id].
  split; [by destruct (r_id result)|].
  split; [by destruct (get_default _ _)|].
  apply with_order_id_fields.
Qed.

(** X16. An approved order that the venue reports as filled (Scenario
    B): [process_order] publishes [order.created] and then
    [trade.executed] with the quantity and the price of the fill
    ([result.get("filled", order_data.get("quantity"))] and likewise
    for the price: those of the reply, those of the order where the
    reply has no such key), and updates the risk manager: a buy records
    a position whose value is the product of the two, as computed,
    under the order's symbol; any other side closes the position of the
    symbol and adds that product to the daily P&L. *)
Theorem filled_order_is_booked env w od acct d result fee q p side :
  running w = true ->
  venue_get_account_info env = Ok acct ->
  fst (evaluate_order (formatter env) (arith env) (with_order_id env od)
         (balance_of acct) (risk_manager w)) = Ok d ->
  approved d = true ->
  let od' := with_order_id env od in
  create_reply env od' = Ok (Some result) ->
  let od2 := update_with_reply result (utcnow_iso env (clock_reads w)) od' in
  redis_publish env "order.created" (OrderCreated od2) = Ok tt ->
  is_filled_status (get (r_status result)) = true ->
  fee_cost (r_fee result) = Ok fee ->
  filled_quantity od result = Some q ->
  filled_price od result = Some p ->
  get (o_side od) = Some side ->
  let trade :=
    TradeExecuted
      (trade_of od2 result fee (utcnow_iso env (clock_reads w + 1))) in
  redis_publish env "trade.executed" trade = Ok tt ->
  let value := fmul (arith env) (num_val q) (num_val p) in
  let rm' :=
    snd ((if is_buy side
          then record_position_open (position_of (arith env) od2 q p)
          else record_position_close (arith env) (get (o_symbol od)) value)
           (risk_manager w)) in
  process_order env (mkFrame w od)
  = (Ok (Some result),
     mkFrame
       (advanced w rm'
          [("order.created", OrderCreated od2); ("trade.executed", trade)]
          (submission_calls od') 2)
       od2)
  /\ (is_buy side = true ->
      open_positions rm' !! get (o_symbol od)
      = Some (position_of (arith env) od2 q p)
      /\ p_value (position_of (arith env) od2 q p) = Some value
      /\ daily_pnl rm' = daily_pnl (risk_manager w))
  /\ (is_buy side = false ->
      open_positions rm' !! get (o_symbol od) = None
      /\ daily_pnl rm'
         = match open_positions (risk_manager w) !! get (o_symbol od) with
           | Some _ => fadd (arith env) (daily_pnl (risk_manager w)) value
           | None => daily_pnl (risk_manager w)
           end).
Proof.
  intros Hrun Hacct Hev Happ od' Hcreate od2 Hpub Hfilled Hfee Hq Hp Hside
    trade Hpub2 value rm'.
  destruct (with_order_id_fields env od)
    as (_ & _ & _ & Hsym & Hsd & Hqty & Hpr & _).
  split; [|split].
  - rewrite (process_order_after_created env w od acct d result) by done.
    fold od' od2. rewrite Hfilled.
    rewrite (handle_order_filled_books env _ od2 result fee q p side);
      try done.
    + rewrite advanced_advanced. cbn [app Nat.add].
      subst rm' trade value. unfold advanced at 2.
      cbn [risk_manager clock_reads].
      subst od2 od'. cbn [update_with_reply o_symbol]. by rewrite Hsym.
    + subst od2 od'. unfold filled_quantity in *. cbn. by rewrite Hqty.
    + subst od2 od'. unfold filled_price in *. cbn. by rewrite Hpr.
    + subst od2 od'. cbn. by rewrite Hsd.
  - intros Hbuy. subst rm'. rewrite Hbuy. cbn.
    subst od2 od'. cbn. rewrite Hsym. by rewrite lookup_insert_eq.
  - intros Hsell. subst rm'. rewrite Hsell.
    destruct (open_positions (risk_manager w) !! get (o_symbol od)) eqn:E.
    + rewrite record_position_close_known by by eexists.
      cbn. by rewrite lookup_delete_eq.
    + by rewrite record_position_close_unknown.
Qed.

(** X17. A fill without a price: when the venue reports the order as
    filled and the quantity or the price of the fill is [None] (the
    reply holds [None] under the key, or the reply has no such key and
    the order has none or holds [None]), the multiplication in
    [_handle_order_filled] raises [TypeError] after [order.created] and
    [trade.executed] have been published; [process_order] then
    publishes [order.error] with the text of the exception, which names
    the types of the two operands, and answers [None] although the
    order exists at the venue, and no position is recorded. *)
Theorem fill_without_price_is_an_error env w od acct d result fee e :
  running w = true ->
  venue_get_account_info env = Ok acct ->
  fst (evaluate_order (formatter env) (arith env) (with_order_id env od)
         (balance_of acct) (risk_manager w)) = Ok d ->
  approved d = true ->
  let od' := with_order_id env od in
  create_reply env od' = Ok (Some result) ->
  let od2 := update_with_reply result (utcnow_iso env (clock_reads w)) od' in
  redis_publish env "order.created" (OrderCreated od2) = Ok tt ->
  is_filled_status (get (r_status result)) = true ->
  fee_cost (r_fee result) = Ok fee ->
  py_mul (arith env) (filled_quantity od result) (filled_price od result)
  = Raise e ->
  let trade :=
    TradeExecuted
      (trade_of od2 result fee (utcnow_iso env (clock_reads w + 1))) in
  redis_publish env "trade.executed" trade = Ok tt ->
  let failure :=
    OrderError (handled_id env od) (str_exn e)
      (utcnow_iso env (clock_reads w + 2)) in
  redis_publish env "order.error" failure = Ok tt ->
  process_order env (mkFrame w od)
  = (Ok None,
     mkFrame
       (advanced w (risk_manager w)
          [ ("order.created", OrderCreated od2); ("trade.executed", trade);
            ("order.error", failure) ]
          (submission_calls od') 3)
       od2)
  /\ str_exn e
     = "unsupported operand type(s) for *: '"
       +:+ type_name (filled_quantity od result) +:+ "' and '"
       +:+ type_name (filled_price od result) +:+ "'"
  /\ (filled_quantity od result = None \/ filled_price od result = None).
Proof.
  intros Hrun Hacct Hev Happ od' Hcreate od2 Hpub Hfilled Hfee Hmul
    trade Hpub2 failure Hpub3.
  destruct (with_order_id_fields env od)
    as (Hid & _ & _ & Hsym & Hsd & Hqty & Hpr & _).
  split; [|split].
  - rewrite (process_order_after_created env w od acct d result) by done.
    fold od' od2. rewrite Hfilled.
    unfold _handle_order_filled.
    unfold bind at 1, gets at 1. cbn [order_data].
    unfold bind at 1, lift_outcome at 1. rewrite Hfee.
    unfold bind at 1, on_self at 1, utcnow at 1. cbn [self order_data].
    unfold bind at 1, on_self at 1, publish at 1.
    cbn [self order_data advanced clock_reads].
    fold (filled_quantity od2 result) (filled_price od2 result).
    fold (trade_of od2 result fee (utcnow_iso env (clock_reads w + 1))).
    fold trade. rewrite Hpub2. cbn [td_quantity td_price trade_of].
    assert (Hq2 : filled_quantity od2 result = filled_quantity od result).
    { subst od2 od'. unfold filled_quantity. cbn. by rewrite Hqty. }
    assert (Hp2 : filled_price od2 result = filled_price od result).
    { subst od2 od'. unfold filled_price. cbn. by rewrite Hpr. }
    rewrite Hq2, Hp2.
    unfold bind at 1, lift_outcome at 1. rewrite Hmul.
    unfold process_order_handler, bind, gets, on_self, utcnow, publish, ret.
    cbn [self order_data clock_reads].
    assert (Hid2 : get_default (o_order_id od2) (Some "unknown")
                   = handled_id env od).
    { subst od2 od'. cbn. apply with_order_id_fields. }
    rewrite Hid2.
    replace (S (clock_reads w + 1)) with (clock_reads w + 2) by lia.
    fold failure. rewrite Hpub3.
    unfold advanced. cbn. rewrite <- !app_assoc. cbn.
    by replace (S (clock_reads w + 2)) with (clock_reads w + 3) by lia.
  - unfold py_mul in Hmul.
    destruct (filled_quantity od result), (filled_price od result);
      try discriminate Hmul; by injection Hmul as <-.
  - unfold py_mul in Hmul.
    destruct (filled_quantity od result), (filled_price od result);
      try discriminate Hmul; auto.
Qed.

Ltac pick_topics :=
  unfold process_order_topics; cbn;
  repeat first [ by left | right ].

Ltac split_cases E :=
  repeat match type of E with
  | context [match ?x with _ => _ end] =>
      match x with
      | context [match _ with _ => _ end] => fail 1
      | _ => destruct x eqn:?
      end;
      cbn [self order_data running risk_manager published venue_calls
           clock_reads fst snd negb] in E
  end.

(** X18. What one call of [process_order] can do.  The messages it
    publishes are, in order, one of: nothing; [order.rejected];
    [order.error]; [order.created]; [order.created] then [order.error];
    [order.created] then [trade.executed]; or these two followed by
    [order.error]; each of them carries the order id that
    [order_data.get("order_id")] gives once the first statement has run
    (the id of the order, [None] when the key holds [None], the
    generated id when the key was absent).  The exchange adapter is
    asked for the balance and then at most once to create the order,
    and for nothing else.  The running flag is unchanged, and an
    exception leaves [process_order] only when publishing [order.error]
    itself raised it. *)
Theorem process_order_protocol env w od :
  exists messages calls,
    published (self (snd (process_order env (mkFrame w od))))
    = published w ++ messages
    /\ venue_calls (self (snd (process_order env (mkFrame w od))))
       = venue_calls w ++ calls
    /\ map fst messages ∈ process_order_topics
    /\ Forall (fun m => message_order_id (snd m) = handled_id env od)
         messages
    /\ (calls = [] \/ calls = [CallGetAccountInfo]
        \/ calls = submission_calls (with_order_id env od))
    /\ running (self (snd (process_order env (mkFrame w od)))) = running w
    /\ match fst (process_order env (mkFrame w od)) with
       | Ok _ => True
       | Raise e => exists msg, redis_publish env "order.error" msg = Raise e
       end.
Proof.
  destruct (process_order env (mkFrame w od)) as [res f] eqn:E.
  cbn [fst snd].
  unfold process_order, bind at 1, gets at 1 in E. cbn [self running] in E.
  destruct (running w) eqn:Hrun; cbn [negb] in E.
  2:{ injection E as <- <-. exists [], []. cbn. rewrite !app_nil_r.
      repeat split; try done; [pick_topics|by left]. }
  assert (Hid : get_default (o_order_id (with_order_id env od))
                  (Some "unknown") = handled_id env od)
    by apply with_order_id_fields.
  assert (Hid' : get (o_order_id (with_order_id env od)) = handled_id env od)
    by apply with_order_id_fields.
  assert (Hid'' : order_id_of (with_order_id env od)
                  = Ok (handled_id env od))
    by apply with_order_id_fields.
  unfold process_order_body in E.
  rewrite (process_order_starts env w od Hrun) in E.
  set (od' := with_order_id env od) in *.
  unfold submission_calls, create_call.
  unfold try_except, process_order_handler,
    _handle_order_filled, record_position_open, record_position_close,
    bind, gets, ret, on_self, venue, with_risk,
    set_order_data, modify, lift_outcome, publish, utcnow, advanced in E.
  cbn [self order_data running risk_manager published venue_calls
       clock_reads fst snd] in E.
  rewrite ?Hid, ?Hid'' in E.
  split_cases E.
  all: simplify_eq; cbn [self published venue_calls running order_data];
    rewrite <- ?app_assoc; cbn [app];
    eexists _, _;
    (split; [first [reflexivity | symmetry; apply app_nil_r]|]);
    (split; [first [reflexivity | symmetry; apply app_nil_r]|]);
    cbn;
    (split; [pick_topics|]);
    (split; [repeat constructor; cbn; rewrite ?Hid, ?Hid'; done|]);
    (split; [first [by left | by right; left | by right; right]|]);
    (split; [done|]);
    first [done | by eexists].
Qed.

(** X19. [cancel_order] never raises.  It answers [True] exactly when
    the manager is running, the status obtained for the order is neither
    an error nor [filled], [canceled] or [expired], the adapter's
    [cancel_order] returns a truthy result and [order.canceled] is
    accepted by the event bus; [order.canceled] is the only message it
    can publish, and it publishes it only with the answer [True].  The
    adapter's [cancel_order] is called at most once, after the status
    query, and the risk manager and the running flag are unchanged. *)
Theorem cancel_order_succeeds_iff env w order_id :
  let r := cancel_order env order_id w in
  let reply := status_seen env order_id in
  let event := OrderCanceled order_id (utcnow_iso env (clock_reads w)) in
  (fst r = Ok true \/ fst r = Ok false)
  /\ (fst r = Ok true <->
      running w = true
      /\ is_error_status (get (r_status reply)) = false
      /\ not_cancelable (get (r_status reply)) = false
      /\ venue_cancel_order env order_id (r_symbol reply) = Ok true
      /\ redis_publish env "order.canceled" event = Ok tt)
  /\ published (snd r)
     = match fst r with
       | Ok true => published w ++ [("order.canceled", event)]
       | _ => published w
       end
  /\ (venue_calls (snd r) = venue_calls w
      \/ venue_calls (snd r) = venue_calls w ++ [CallGetOrderStatus order_id]
      \/ venue_calls (snd r)
         = venue_calls w ++
           [CallGetOrderStatus order_id;
            CallCancelOrder order_id (r_symbol reply)])
  /\ risk_manager (snd r) = risk_manager w
  /\ running (snd r) = running w.
Proof.
  intros r reply event.
  destruct r as [res w'] eqn:E. subst r. cbn [fst snd].
  unfold cancel_order, get_order_status, try_except, bind, gets, ret, venue,
    utcnow, publish in E.
  cbn [self running risk_manager published venue_calls clock_reads fst snd]
    in E.
  subst reply event. unfold status_seen.
  destruct (running w) eqn:Hrun; cbn [negb] in E.
  2:{ injection E as <- <-. rewrite Hrun.
      repeat split; try done; try (by right); try (by left).
      all: by intros (? & _). }
  cbn [negb running] in E. rewrite ?Hrun in E. cbn [negb] in E.
  destruct (venue_get_order_status env order_id) as [[reply|]|e] eqn:Hst;
    cbn in E.
  - destruct (is_error_status (get (r_status reply))) eqn:He; cbn in E.
    { injection E as <- <-. cbn.
      repeat split; try done; try (by right); try (by right; left).
      all: by intros (_ & ? & _). }
    destruct (not_cancelable (get (r_status reply))) eqn:Hnc; cbn in E.
    { injection E as <- <-. cbn.
      repeat split; try done; try (by right); try (by right; left).
      all: by intros (_ & _ & ? & _). }
    destruct (venue_cancel_order env order_id (r_symbol reply))
      as [[]|e] eqn:Hc; cbn in E.
    + destruct (redis_publish env "order.canceled"
                  (OrderCanceled order_id (utcnow_iso env (clock_reads w))))
        as [[]|e] eqn:Hp; cbn in E; injection E as <- <-; cbn;
        rewrite <- ?app_assoc; cbn.
      * repeat split; try done; try (by left); by right; right.
      * repeat split; try done; try (by right); try (by right; right).
        all: by intros (_ & _ & _ & _ & ?).
    + injection E as <- <-. cbn. rewrite <- ?app_assoc. cbn.
      repeat split; try done; try (by right); try (by right; right).
      all: by intros (_ & _ & _ & ? & _).
    + injection E as <- <-. cbn. rewrite <- ?app_assoc. cbn.
      repeat split; try done; try (by right); try (by right; right).
      all: by intros (_ & _ & _ & ? & _).
  - injection E as <- <-. cbn.
    repeat split; try done; try (by right); try (by right; left).
    all: by intros (_ & ? & _).
  - injection E as <- <-. cbn.
    repeat split; try done; try (by right); try (by right; left).
    all: by intros (_ & ? & _).
Qed.

Lemma rejected_order_never_reaches_venue_witness :
  fst (process_order (test_env (Ok None) (Ok None))
         (mkFrame started oversized_order))
  = Ok None.
Proof.
  pose (env := test_env (Ok None) (Ok None)).
  assert (Hev :
    fst (evaluate_order (formatter env) (arith env)
           (with_order_id env oversized_order) (balance_of test_account)
           (risk_manager started))
    = Ok (reject "Position size 200.00% exceeds maximum 5.00%"))
    by (vm_compute; reflexivity).
  exact (f_equal fst
           (rejected_order_never_reaches_venue env started oversized_order
              test_account _ eq_refl eq_refl Hev eq_refl eq_refl)).
Defined.

Lemma accepted_order_is_announced_witness :
  fst (process_order
         (test_env (Ok (Some (status_reply "new" "BTC"))) (Ok None))
         (mkFrame started api_order))
  = Ok (Some (status_reply "new" "BTC")).
Proof.
  pose (env := test_env (Ok (Some (status_reply "new" "BTC"))) (Ok None)).
  assert (Hev :
    fst (evaluate_order (formatter env) (arith env)
           (with_order_id env api_order) (balance_of test_account)
           (risk_manager started))
    = Ok approval) by (vm_compute; reflexivity).
  exact (f_equal fst
           (proj1 (accepted_order_is_announced env started api_order
                     test_account approval (status_reply "new" "BTC")
                     eq_refl eq_refl Hev eq_refl eq_refl eq_refl eq_refl))).
Defined.

Lemma filled_order_is_booked_witness :
  fst (process_order
         (test_env (Ok (Some (status_reply "filled" "BTC"))) (Ok None))
         (mkFrame started api_order))
  = Ok (Some (status_reply "filled" "BTC")).
Proof.
  pose (env := test_env (Ok (Some (status_reply "filled" "BTC"))) (Ok None)).
  assert (Hev :
    fst (evaluate_order (formatter env) (arith env)
           (with_order_id env api_order) (balance_of test_account)
           (risk_manager started))
    = Ok approval) by (vm_compute; reflexivity).
  exact (f_equal fst
           (proj1 (filled_order_is_booked env started api_order
                     test_account approval (status_reply "filled" "BTC")
                     (Some (PyInt 0)) (PyFloat (5 # 10)) (PyFloat 20000)
                     "buy"
                     eq_refl eq_refl Hev eq_refl eq_refl eq_refl eq_refl
                     eq_refl eq_refl eq_refl eq_refl eq_refl))).
Defined.

(** The order has a price, the reply holds [None] under [price]. *)
Lemma fill_without_price_is_an_error_witness :
  let reply :=
    mkReply (Some "v1") (Val "filled") (Some "BTC") Absent Null FeeAbsent
      None in
  let r :=
    process_order (test_env (Ok (Some reply)) (Ok None))
      (mkFrame started api_order) in
  fst r = Ok None
  /\ last (published (self (snd r)))
     = Some ("order.error",
             OrderError None
               "unsupported operand type(s) for *: 'float' and 'NoneType'"
               "T2").
Proof.
  cbn zeta.
  pose (reply := mkReply (Some "v1") (Val "filled") (Some "BTC") Absent Null
                   FeeAbsent None).
  pose (env := test_env (Ok (Some reply)) (Ok None)).
  assert (Hev :
    fst (evaluate_order (formatter env) (arith env)
           (with_order_id env api_order) (balance_of test_account)
           (risk_manager started))
    = Ok approval) by (vm_compute; reflexivity).
  pose proof
    (proj1 (fill_without_price_is_an_error env started api_order
              test_account approval reply (Some (PyInt 0))
              (TypeError
                 "unsupported operand type(s) for *: 'float' and 'NoneType'")
              eq_refl eq_refl Hev eq_refl eq_refl eq_refl eq_refl
              eq_refl eq_refl eq_refl eq_refl)) as H.
  fold reply env. rewrite H. split; reflexivity.
Defined.

End OrderManagerMore.

Section BeforeSubmission.
Import RiskM OrderManagerM Props ManagerProps RiskProps.

Implicit Types (env : Env) (w : OrderManager) (od : OrderData).





(** What [evaluate_order] raises on [None]: an order whose [quantity]
    or [price] holds [None] fails at the product, and a balance that is
    [None] fails at the comparison with 0. *)
Lemma evaluate_order_none_inputs F ar od balance rm :
  (get_default (o_quantity od) (Some (PyInt 0)) = None
   \/ get_default (o_price od) (Some (PyInt 0)) = None ->
   exists msg, evaluate_order F ar od balance rm = (Raise (TypeError msg), rm))
  /\ (forall v,
        order_value_of ar od = Ok v ->
        evaluate_order F ar od None rm
        = (Raise (TypeError
                    "'>' not supported between instances of 'NoneType' and 'int'"),
           rm)).
Proof.
  split.
  - intros H. unfold evaluate_order, order_value_of, py_mul.
    destruct H as [-> | ->];
      [|destruct (get_default (o_quantity od) _)]; by eexists.
  - intros v Hv. unfold evaluate_order. by rewrite Hv.
Qed.

(** X21. A failure before the submission is reported and stops the
    order: when the adapter's account query raises, or the risk
    evaluation raises (as it does for an order without a side, for an
    order whose quantity or price holds [None], and for a balance that
    holds [None]), [process_order] publishes [order.error] with the
    order id and the text of the exception, answers [None], and does
    not call [create_order]; the risk manager is unchanged. *)
Theorem failure_before_submission_is_reported env w od e :
  running w = true ->
  (venue_get_account_info env = Raise e
   \/ exists acct,
        venue_get_account_info env = Ok acct
        /\ fst (evaluate_order (formatter env) (arith env)
                  (with_order_id env od) (balance_of acct) (risk_manager w))
           = Raise e) ->
  let message :=
    OrderError (handled_id env od) (str_exn e)
      (utcnow_iso env (clock_reads w)) in
  redis_publish env "order.error" message = Ok tt ->
  process_order env (mkFrame w od)
  = (Ok None,
     mkFrame
       (advanced w (risk_manager w) [("order.error", message)]
          [CallGetAccountInfo] 1)
       (with_order_id env od)).
Proof.
  intros Hrun Hfail message Hpub.
  assert (E : process_order env (mkFrame w od)
              = process_order_handler env e
                  (mkFrame
                     (advanced w (risk_manager w) [] [CallGetAccountInfo] 0)
                     (with_order_id env od))).
  { destruct Hfail as [Hacct|(acct & Hacct & Hev)].
    - unfold process_order, bind at 1, gets at 1. cbn [self running].
      rewrite Hrun. cbn [negb]. unfold process_order_body.
      by rewrite (process_order_starts env w od Hrun), Hacct.
    - rewrite (process_order_evaluates env w od acct Hrun Hacct).
      cbn zeta. by rewrite Hev. }
  rewrite E.
  unfold process_order_handler, bind, gets, on_self, utcnow, publish, ret.
  cbn [self order_data advanced clock_reads].
  destruct (with_order_id_fields env od) as (_ & -> & _).
  rewrite Nat.add_0_r. fold message. rewrite Hpub. unfold advanced. cbn.
  by rewrite ?app_nil_r, ?Nat.add_0_r, ?Nat.add_1_r.
Qed.

(** The account reply holds [None] under [balance]. *)
Lemma failure_before_submission_is_reported_witness :
  let r :=
    process_order (env_with_account (Ok {| a_balance := Null |}))
      (mkFrame started api_order) in
  fst r = Ok None
  /\ published (self (snd r))
     = [("order.error",
         OrderError None
           "'>' not supported between instances of 'NoneType' and 'int'"
           "T0")].
Proof.
  cbn zeta.
  pose proof
    (failure_before_submission_is_reported
       (env_with_account (Ok {| a_balance := Null |})) started api_order
       (TypeError
          "'>' not supported between instances of 'NoneType' and 'int'")
       eq_refl
       (or_intror (ex_intro _ {| a_balance := Null |}
                     (conj eq_refl eq_refl)))
       eq_refl) as H.
  rewrite H. split; reflexivity.
Defined.

End BeforeSubmission.

Section StatusQuery.

Import RiskM OrderManagerM Props ManagerProps.

(** X22. [get_order_status] never raises and always answers a reply:
    either the non-empty reply of the exchange adapter, unchanged, or a
    reply with status [error] (manager not running, empty reply, or an
    exception of the adapter, whose text it carries).  It asks the
    adapter once when the manager is running and not at all otherwise,
    publishes nothing and changes neither the risk manager nor the
    running flag. *)
Theorem get_order_status_always_answers env w order_id :
  let r := get_order_status env order_id w in
  (exists reply,
     fst r = Ok reply
     /\ (venue_get_order_status env order_id = Ok (Some reply)
         \/ get (r_status reply) = Some "error")
     /\ (forall e, running w = true ->
           venue_get_order_status env order_id = Raise e ->
           r_error reply = Some (str_exn e)))
  /\ venue_calls (snd r)
     = venue_calls w
       ++ (if running w then [CallGetOrderStatus order_id] else [])
  /\ published (snd r) = published w
  /\ risk_manager (snd r) = risk_manager w
  /\ running (snd r) = running w.
Proof.
  cbn zeta.
  unfold get_order_status, try_except, bind, gets, ret, venue.
  destruct (running w) eqn:Hrun; cbn [negb].
  - cbn [fst snd venue_calls].
    destruct (venue_get_order_status env order_id) as [[reply|]|e] eqn:Hv;
      cbn [fst snd venue_calls published risk_manager running].
    + split; [|done]. exists reply. repeat split; [by left|].
      intros e _ He. discriminate He.
    + split; [|done]. eexists. repeat split; [by right|].
      intros e _ He. discriminate He.
    + split; [|done]. eexists. repeat split; [by right|].
      intros e' _ He. by injection He as ->.
  - cbn. rewrite app_nil_r, Hrun. split; [|done].
    eexists. repeat split; [by right|]. intros e He. discriminate He.
Qed.

End StatusQuery.
